(** * JNativeHook, X11 back end: the capture callback and the hook thread

    A shallow embedding of [src/native/unix/hook_thread.c]: the mouse
    globals ([click_count], [click_time], [mouse_dragged]), the record
    callback [callback_proc], the capture thread body [thread_proc], and the
    life-cycle entry points [start_native_thread] and
    [is_hook_thread_running].  The file is read in its synchronous
    configuration ([XRECORD_ASYNC] undefined) on an LP64 platform
    ([long] and [jlong] are both 64 bits wide).

    The Java machine is seen through the objects that the callback hands to
    [dispatchNativeEvent]; pending JNI exceptions, which the callback clears
    before it returns, and the release of the intercepted data are outside
    the model.  The answers of Xlib, of the record extension and of pthreads
    are given to the functions as arguments, so that every path of the
    source can be taken. *)

From Stdlib Require Import ZArith List Bool Lia.
Import ListNotations.
Local Open Scope Z_scope.

(** ** Machine integers *)

Module CInt.

(** Conversion to an unsigned integer type of [w] bits. *)
Definition to_unsigned (w x : Z) : Z := x mod 2 ^ w.

(** Conversion to a signed (two's complement) integer type of [w] bits. *)
Definition to_signed (w x : Z) : Z := (x + 2 ^ (w - 1)) mod 2 ^ w - 2 ^ (w - 1).

Definition to_ushort : Z -> Z := to_unsigned 16.   (* unsigned short *)
Definition to_jchar : Z -> Z := to_unsigned 16.    (* jchar *)
Definition to_long : Z -> Z := to_signed 64.       (* long, jlong *)

Definition LONG_MAX : Z := 2 ^ 63 - 1.
Definition USHRT_MAX : Z := 65535.

End CInt.

(** ** X11 protocol constants and records *)

Module X11.

(* Event types, X.h *)
Definition KeyPress : Z := 2.
Definition KeyRelease : Z := 3.
Definition ButtonPress : Z := 4.
Definition ButtonRelease : Z := 5.
Definition MotionNotify : Z := 6.

(** Modelled from the spec: XWheelCodes.h is not among the sources; the
    spec reserves buttons 4 and 5 as the scroll-wheel notches, and X11
    reports a notch away from the user as button 4 and a notch toward the
    user as button 5. *)
Definition WheelUp : Z := 4.
Definition WheelDown : Z := 5.

(* Categories of intercepted data, recordconst.h *)
Inductive category : Type :=
| XRecordFromServer
| XRecordFromClient
| XRecordClientStarted
| XRecordClientDied
| XRecordStartOfData
| XRecordEndOfData.

(** The fields of [XRecordDatum] that [callback_proc] reads. *)
Record XRecordDatum : Type := {
  type : Z;      (* data->type, unsigned char *)
  detail : Z;    (* data->event.u.u.detail, BYTE *)
  state : Z;     (* data->event.u.keyButtonPointer.state *)
  rootX : Z;     (* data->event.u.keyButtonPointer.rootX *)
  rootY : Z      (* data->event.u.keyButtonPointer.rootY *)
}.

Record XRecordInterceptData : Type := {
  hook_category : category;
  hook_data : XRecordDatum
}.

Record timeval : Type := { tv_sec : Z; tv_usec : Z }.

Definition Display : Type := Z.          (* a non-NULL Display* *)
Definition XRecordContext : Type := Z.   (* an XID; 0 is no context *)
Definition pthread_t : Type := Z.

End X11.
Import X11.

(** ** The Java side *)

(** Event identifiers of [NativeKeyEvent] and [NativeMouseEvent]. *)
Inductive event_id : Type :=
| NATIVE_KEY_PRESSED
| NATIVE_KEY_TYPED
| NATIVE_KEY_RELEASED
| NATIVE_MOUSE_PRESSED
| NATIVE_MOUSE_RELEASED
| NATIVE_MOUSE_CLICKED
| NATIVE_MOUSE_MOVED
| NATIVE_MOUSE_DRAGGED
| NATIVE_MOUSE_WHEEL.

(** The objects [callback_proc] builds with [NewObject]; one constructor per
    Java constructor id, with the arguments in the order of the call. *)
Inductive NativeEvent : Type :=
| NativeKeyEvent (id : event_id)
    (when modifiers rawCode keyCode keyChar keyLocation : Z)
| NativeMouseButtonEvent (id : event_id)
    (when modifiers x y clickCount button : Z)
| NativeMouseMotionEvent (id : event_id)
    (when modifiers x y clickCount : Z)
| NativeMouseWheelEvent (id : event_id)
    (when modifiers x y clickCount scrollType scrollAmount wheelRotation : Z).

Definition id_of (e : NativeEvent) : event_id :=
  match e with
  | NativeKeyEvent i _ _ _ _ _ _ => i
  | NativeMouseButtonEvent i _ _ _ _ _ _ => i
  | NativeMouseMotionEvent i _ _ _ _ _ => i
  | NativeMouseWheelEvent i _ _ _ _ _ _ _ _ => i
  end.

Definition event_id_eqb (a b : event_id) : bool :=
  match a, b with
  | NATIVE_KEY_PRESSED, NATIVE_KEY_PRESSED
  | NATIVE_KEY_TYPED, NATIVE_KEY_TYPED
  | NATIVE_KEY_RELEASED, NATIVE_KEY_RELEASED
  | NATIVE_MOUSE_PRESSED, NATIVE_MOUSE_PRESSED
  | NATIVE_MOUSE_RELEASED, NATIVE_MOUSE_RELEASED
  | NATIVE_MOUSE_CLICKED, NATIVE_MOUSE_CLICKED
  | NATIVE_MOUSE_MOVED, NATIVE_MOUSE_MOVED
  | NATIVE_MOUSE_DRAGGED, NATIVE_MOUSE_DRAGGED
  | NATIVE_MOUSE_WHEEL, NATIVE_MOUSE_WHEEL => true
  | _, _ => false
  end.

Definition has_id (i : event_id) (e : NativeEvent) : bool :=
  event_id_eqb (id_of e) i.

Record JKeyDatum : Type := { keycode : Z; location : Z }.

(** What the callback uses from headers that are not among the sources
    (NativeToJava.h, XInputHelpers.h and the generated JNI headers). *)
Record Externals : Type := {
  KeyCodeToKeySym : Z -> Z -> Z;
  KeySymToUnicode : Z -> Z;
  NativeToJKey : Z -> JKeyDatum;
  NativeToJEventMask : Z -> Z;
  NativeToJButton : Z -> Z;
  GetMultiClickTime : Z;
  CHAR_UNDEFINED : Z;
  VK_UNDEFINED : Z;
  WHEEL_UNIT_SCROLL : Z
}.

(** ** Mouse globals *)

Record mouse : Type := {
  click_count : Z;        (* static unsigned short click_count = 0; *)
  click_time : Z;         (* static long click_time = 0; *)
  mouse_dragged : bool    (* static bool mouse_dragged = false; *)
}.

Definition mouse_init : mouse :=
  {| click_count := 0; click_time := 0; mouse_dragged := false |}.

(** [jlong event_time = (time_val.tv_sec * 1000) + (time_val.tv_usec / 1000)] *)
Definition event_time_of (tv : timeval) : Z :=
  CInt.to_long (tv_sec tv * 1000 + Z.quot (tv_usec tv) 1000).

(** [event_code > 0 && (event_code <= 3 || event_code == 8 || event_code == 9)] *)
Definition is_button_code (event_code : Z) : bool :=
  (0 <? event_code) &&
  ((event_code <=? 3) || (event_code =? 8) || (event_code =? 9)).

(** [event_code == WheelUp || event_code == WheelDown] *)
Definition is_wheel_code (event_code : Z) : bool :=
  (event_code =? WheelUp) || (event_code =? WheelDown).

(** [jmodifiers >> 4 > 0] *)
Definition upper_half_set (jmodifiers : Z) : bool :=
  0 <? Z.shiftr jmodifiers 4.

Section Callback.

Variable X : Externals.

(** The click tracking at the head of [case ButtonPress]. *)
Definition track_click (event_time : Z) (m : mouse) : mouse :=
  {| click_count :=
       if CInt.to_long (event_time - click_time m) <=? GetMultiClickTime X
       then CInt.to_ushort (click_count m + 1)
       else 1;
     click_time := CInt.to_long event_time;
     mouse_dragged := mouse_dragged m |}.

(** The click reset at the head of [case MotionNotify], followed by the
    assignment to [mouse_dragged]. *)
Definition track_motion (event_time jmodifiers : Z) (m : mouse) : mouse :=
  {| click_count :=
       if negb (click_count m =? 0) &&
          (GetMultiClickTime X <? CInt.to_long (event_time - click_time m))
       then 0
       else click_count m;
     click_time := click_time m;
     mouse_dragged := upper_half_set jmodifiers |}.

(** The body of [switch (event_type)]: the new mouse globals and the
    objects handed to [dispatchNativeEvent], in order. *)
Definition switch_event_type (event_time : Z) (data : XRecordDatum)
    (m : mouse) : mouse * list NativeEvent :=
  let event_type := type data in
  let event_code := detail data in
  let event_mask := state data in
  let event_root_x := rootX data in
  let event_root_y := rootY data in
  if event_type =? KeyPress then
    let keysym := KeyCodeToKeySym X event_code event_mask in
    let jkey := NativeToJKey X keysym in
    let jmodifiers := NativeToJEventMask X event_mask in
    let keytxt := KeySymToUnicode X keysym in
    (m,
     NativeKeyEvent NATIVE_KEY_PRESSED event_time jmodifiers event_code
       (keycode jkey) (CHAR_UNDEFINED X) (location jkey)
     :: (if keytxt =? 0 then []
         else [NativeKeyEvent NATIVE_KEY_TYPED event_time jmodifiers
                 event_code (VK_UNDEFINED X) (CInt.to_jchar keytxt)
                 (location jkey)]))
  else if event_type =? KeyRelease then
    let keysym := KeyCodeToKeySym X event_code event_mask in
    let jkey := NativeToJKey X keysym in
    let jmodifiers := NativeToJEventMask X event_mask in
    (m,
     [NativeKeyEvent NATIVE_KEY_RELEASED event_time jmodifiers event_code
        (keycode jkey) (CHAR_UNDEFINED X) (location jkey)])
  else if event_type =? ButtonPress then
    let m' := track_click event_time m in
    let jmodifiers := NativeToJEventMask X event_mask in
    if is_button_code event_code then
      let jbutton := NativeToJButton X event_code in
      (m',
       [NativeMouseButtonEvent NATIVE_MOUSE_PRESSED event_time jmodifiers
          event_root_x event_root_y (click_count m') jbutton])
    else if is_wheel_code event_code then
      let jscrollType := WHEEL_UNIT_SCROLL X in
      let jscrollAmount := 3 in
      let jwheelRotation := if event_code =? WheelUp then -1 else 1 in
      (m',
       [NativeMouseWheelEvent NATIVE_MOUSE_WHEEL event_time jmodifiers
          event_root_x event_root_y (click_count m')
          jscrollType jscrollAmount jwheelRotation])
    else (m', [])
  else if event_type =? ButtonRelease then
    if is_button_code event_code then
      let jbutton := NativeToJButton X event_code in
      let jmodifiers := NativeToJEventMask X event_mask in
      (m,
       NativeMouseButtonEvent NATIVE_MOUSE_RELEASED event_time jmodifiers
         event_root_x event_root_y (click_count m) jbutton
       :: (if mouse_dragged m then []
           else [NativeMouseButtonEvent NATIVE_MOUSE_CLICKED event_time
                   jmodifiers event_root_x event_root_y (click_count m)
                   jbutton]))
    else (m, [])
  else if event_type =? MotionNotify then
    let jmodifiers := NativeToJEventMask X event_mask in
    let m' := track_motion event_time jmodifiers m in
    (m',
     [NativeMouseMotionEvent
        (if upper_half_set jmodifiers
         then NATIVE_MOUSE_DRAGGED else NATIVE_MOUSE_MOVED)
        event_time jmodifiers event_root_x event_root_y (click_count m')])
  else (m, []).

End Callback.

(** ** The process: globals, platform resources, and what was observed *)

Inductive status : Type := RETURN_SUCCESS | RETURN_FAILURE.

Inductive mutex : Type := hook_running_mutex | hook_control_mutex.

Inductive thread : Type := Caller | Capture.

(** Platform calls, as logged with the thread that made them. *)
Inductive call : Type :=
| CallXOpenDisplay
| CallXCloseDisplay (d : Display)
| CallXRecordQueryVersion (d : Display)
| CallXRecordAllocRange
| CallXRecordCreateContext (d : Display)
| CallXFree
| CallXRecordEnableContext (c : XRecordContext)
| CallXRecordFreeContext (c : XRecordContext)
| CallLoadInputHelper
| CallPthreadCreate
| CallPthreadJoin (t : pthread_t).

(** The static handles of hook_thread.c. *)
Record handles : Type := {
  disp_ctrl : option Display;     (* static Display *disp_ctrl; None is NULL *)
  context : XRecordContext;       (* static XRecordContext context; *)
  running_locked : bool;          (* hook_running_mutex is locked *)
  control_locked : bool;          (* hook_control_mutex is locked *)
  hook_thread_id : pthread_t      (* static pthread_t hook_thread_id; *)
}.

(** What the process holds of the platform. *)
Record resources : Type := {
  connections : list Display;           (* opened and not closed *)
  contexts : list XRecordContext;       (* created and not freed *)
  ranges : Z;                           (* XRecordRange allocated, not freed *)
  input_helper : bool;                  (* LoadInputHelper() has run *)
  threads : list pthread_t;             (* capture threads alive *)
  exited : list (pthread_t * status)    (* exit status of unjoined threads *)
}.

Record system : Type := {
  gm : mouse;
  gh : handles;
  res : resources;
  sink : list NativeEvent;          (* objects given to dispatchNativeEvent *)
  calls : list (thread * call)      (* platform calls, oldest first *)
}.

Definition handles_init : handles :=
  {| disp_ctrl := None; context := 0; running_locked := false;
     control_locked := false; hook_thread_id := 0 |}.

Definition resources_init : resources :=
  {| connections := []; contexts := []; ranges := 0; input_helper := false;
     threads := []; exited := [] |}.

Definition system_init : system :=
  {| gm := mouse_init; gh := handles_init; res := resources_init;
     sink := []; calls := [] |}.

Definition with_mouse (m : mouse) (s : system) : system :=
  {| gm := m; gh := gh s; res := res s; sink := sink s; calls := calls s |}.

Definition with_handles (h : handles) (s : system) : system :=
  {| gm := gm s; gh := h; res := res s; sink := sink s; calls := calls s |}.

Definition with_resources (r : resources) (s : system) : system :=
  {| gm := gm s; gh := gh s; res := r; sink := sink s; calls := calls s |}.

Definition with_sink (l : list NativeEvent) (s : system) : system :=
  {| gm := gm s; gh := gh s; res := res s; sink := l; calls := calls s |}.

Definition with_calls (l : list (thread * call)) (s : system) : system :=
  {| gm := gm s; gh := gh s; res := res s; sink := sink s; calls := l |}.

Definition locked (mx : mutex) (s : system) : bool :=
  match mx with
  | hook_running_mutex => running_locked (gh s)
  | hook_control_mutex => control_locked (gh s)
  end.

Definition set_locked (mx : mutex) (b : bool) (s : system) : system :=
  let h := gh s in
  with_handles
    match mx with
    | hook_running_mutex =>
        {| disp_ctrl := disp_ctrl h; context := context h;
           running_locked := b; control_locked := control_locked h;
           hook_thread_id := hook_thread_id h |}
    | hook_control_mutex =>
        {| disp_ctrl := disp_ctrl h; context := context h;
           running_locked := running_locked h; control_locked := b;
           hook_thread_id := hook_thread_id h |}
    end s.

(** ** A state monad in which a call may block

    [Blocks] is the outcome of a thread that waits for a mutex, or for the
    end of a thread, that nothing in the modelled schedule will give it. *)

Inductive outcome (A : Type) : Type :=
| Returns (a : A) (s : system)
| Blocks (s : system).
Arguments Returns {A} a s.
Arguments Blocks {A} s.

Definition M (A : Type) : Type := system -> outcome A.

Definition ret {A : Type} (a : A) : M A := fun s => Returns a s.

Definition bind {A B : Type} (c : M A) (k : A -> M B) : M B :=
  fun s => match c s with
           | Returns a s' => k a s'
           | Blocks s' => Blocks s'
           end.

Definition modify (f : system -> system) : M unit :=
  fun s => Returns tt (f s).

Definition gets {A : Type} (f : system -> A) : M A :=
  fun s => Returns (f s) s.

Declare Scope hook_scope.
Delimit Scope hook_scope with hook.
Notation "x <- c ;; k" := (bind c (fun x => k))
  (at level 61, c at next level, right associativity) : hook_scope.
Notation "c ;; k" := (bind c (fun _ => k))
  (at level 61, right associativity) : hook_scope.
Local Open Scope hook_scope.

(** The call came back to its caller. *)
Definition returned {A : Type} (o : outcome A) : bool :=
  match o with Returns _ _ => true | Blocks _ => false end.

Definition final {A : Type} (o : outcome A) : system :=
  match o with Returns _ s => s | Blocks s => s end.

Definition result {A : Type} (o : outcome A) : option A :=
  match o with Returns a _ => Some a | Blocks _ => None end.

(** *** pthread mutexes (default attributes: no owner, no error checking) *)

Definition EBUSY : Z := 16.

Definition pthread_mutex_lock (mx : mutex) : M Z :=
  fun s => if locked mx s then Blocks s
           else Returns 0 (set_locked mx true s).

Definition pthread_mutex_trylock (mx : mutex) : M Z :=
  fun s => if locked mx s then Returns EBUSY s
           else Returns 0 (set_locked mx true s).

Definition pthread_mutex_unlock (mx : mutex) : M Z :=
  fun s => Returns 0 (set_locked mx false s).

(** *** Platform calls; the outcome of each is given by the caller *)

Definition log (t : thread) (c : call) : M unit :=
  modify (fun s => with_calls (calls s ++ [(t, c)]) s).

Definition update_resources (f : resources -> resources) : M unit :=
  modify (fun s => with_resources (f (res s)) s).

Definition update_handles (f : handles -> handles) : M unit :=
  modify (fun s => with_handles (f (gh s)) s).

Definition XOpenDisplay (t : thread) (r : option Display) : M (option Display) :=
  log t CallXOpenDisplay ;;
  match r with
  | Some d =>
      update_resources (fun w =>
        {| connections := connections w ++ [d]; contexts := contexts w;
           ranges := ranges w; input_helper := input_helper w;
           threads := threads w; exited := exited w |}) ;;
      ret (Some d)
  | None => ret None
  end.

Definition XRecordQueryVersion (t : thread) (d : Display) (r : bool) : M bool :=
  log t (CallXRecordQueryVersion d) ;; ret r.

Definition XRecordAllocRange (t : thread) (r : bool) : M bool :=
  log t CallXRecordAllocRange ;;
  (if r then
     update_resources (fun w =>
       {| connections := connections w; contexts := contexts w;
          ranges := ranges w + 1; input_helper := input_helper w;
          threads := threads w; exited := exited w |})
   else ret tt) ;;
  ret r.

Definition XFree (t : thread) : M unit :=
  log t CallXFree ;;
  update_resources (fun w =>
    {| connections := connections w; contexts := contexts w;
       ranges := ranges w - 1; input_helper := input_helper w;
       threads := threads w; exited := exited w |}).

Definition XRecordCreateContext (t : thread) (d : Display)
    (r : XRecordContext) : M XRecordContext :=
  log t (CallXRecordCreateContext d) ;;
  (if r =? 0 then ret tt
   else update_resources (fun w =>
     {| connections := connections w; contexts := contexts w ++ [r];
        ranges := ranges w; input_helper := input_helper w;
        threads := threads w; exited := exited w |})) ;;
  ret r.

Definition LoadInputHelper (t : thread) : M unit :=
  log t CallLoadInputHelper ;;
  update_resources (fun w =>
    {| connections := connections w; contexts := contexts w;
       ranges := ranges w; input_helper := true;
       threads := threads w; exited := exited w |}).

(** One invocation of the record callback: the intercepted data, whether
    [GetEnv] answers [JNI_OK] on the calling thread, and what
    [gettimeofday] reads. *)
Record delivery : Type := {
  hook : XRecordInterceptData;
  jni_ok : bool;
  now : timeval
}.

Section Hook.

Variable X : Externals.

(** ** [callback_proc] *)

Definition callback_proc (d : delivery) : M unit :=
  match hook_category (hook d) with
  | XRecordStartOfData =>
      pthread_mutex_lock hook_running_mutex ;;
      pthread_mutex_unlock hook_control_mutex ;;
      ret tt
  | XRecordEndOfData =>
      pthread_mutex_unlock hook_running_mutex ;;
      ret tt
  | XRecordFromServer | XRecordFromClient =>
      ctrl <- gets (fun s => disp_ctrl (gh s)) ;;
      match ctrl with
      | Some _ =>
          if jni_ok d then
            r <- pthread_mutex_trylock hook_running_mutex ;;
            if negb (r =? 0) then
              let event_time := event_time_of (now d) in
              m <- gets gm ;;
              let (m', objs) :=
                switch_event_type X event_time (hook_data (hook d)) m in
              modify (with_mouse m') ;;
              modify (fun s => with_sink (sink s ++ objs) s)
            else
              pthread_mutex_unlock hook_running_mutex ;;
              ret tt
          else ret tt
      | None => ret tt
      end
  | XRecordClientStarted | XRecordClientDied => ret tt
  end.

(** The callback on a list of deliveries, in order. *)
Fixpoint callbacks (ds : list delivery) : M unit :=
  match ds with
  | [] => ret tt
  | d :: ds' => callback_proc d ;; callbacks ds'
  end.

(** [XRecordEnableContext(disp_data, context, callback_proc, NULL)], the
    synchronous call.  [None]: the call fails and returns 0.  [Some ds]:
    the context is enabled, the call invokes the callback on [ds] from the
    calling thread, and returns non-zero once the context is disabled. *)
Definition XRecordEnableContext (t : thread) (c : XRecordContext)
    (o : option (list delivery)) : M Z :=
  log t (CallXRecordEnableContext c) ;;
  match o with
  | None => ret 0
  | Some ds => callbacks ds ;; ret 1
  end.

(** ** [is_hook_thread_running] *)

Definition is_hook_thread_running : M bool :=
  r <- pthread_mutex_trylock hook_running_mutex ;;
  if r =? 0 then
    pthread_mutex_unlock hook_running_mutex ;;
    ret false
  else ret true.

(** ** [thread_proc] *)

Definition pthread_exit (tid : pthread_t) (st : status) : M status :=
  update_resources (fun w =>
    {| connections := connections w; contexts := contexts w;
       ranges := ranges w; input_helper := input_helper w;
       threads := filter (fun t => negb (t =? tid)) (threads w);
       exited := exited w ++ [(tid, st)] |}) ;;
  ret st.

Definition thread_proc (tid : pthread_t) (o : option (list delivery))
    : M status :=
  c <- gets (fun s => context (gh s)) ;;
  r <- XRecordEnableContext Capture c o ;;
  let st := if negb (r =? 0) then RETURN_SUCCESS else RETURN_FAILURE in
  pthread_mutex_unlock hook_control_mutex ;;
  pthread_exit tid st.

(** How far the capture thread has come when the caller of
    [start_native_thread] next gets the control mutex. *)
Inductive capture_progress : Type :=
| InEnable (ds : list delivery)
    (* inside XRecordEnableContext, [ds] delivered to the callback *)
| Exited (o : option (list delivery)).
    (* thread_proc has run to pthread_exit *)

Definition run_capture (tid : pthread_t) (p : capture_progress) : M unit :=
  match p with
  | InEnable ds =>
      c <- gets (fun s => context (gh s)) ;;
      log Capture (CallXRecordEnableContext c) ;;
      callbacks ds
  | Exited o => thread_proc tid o ;; ret tt
  end.

Definition pthread_create (t : thread) (r : option pthread_t)
    : M (option pthread_t) :=
  log t CallPthreadCreate ;;
  match r with
  | Some tid =>
      update_handles (fun h =>
        {| disp_ctrl := disp_ctrl h; context := context h;
           running_locked := running_locked h;
           control_locked := control_locked h;
           hook_thread_id := tid |}) ;;
      update_resources (fun w =>
        {| connections := connections w; contexts := contexts w;
           ranges := ranges w; input_helper := input_helper w;
           threads := threads w ++ [tid]; exited := exited w |}) ;;
      ret (Some tid)
  | None => ret None
  end.

Fixpoint exit_status (tid : pthread_t) (l : list (pthread_t * status))
    : option status :=
  match l with
  | [] => None
  | (t, st) :: l' => if t =? tid then Some st else exit_status tid l'
  end.

(** [pthread_join]: returns the status of a thread that has exited, and
    waits for one that has not. *)
Definition pthread_join (t : thread) (tid : pthread_t) : M status :=
  log t (CallPthreadJoin tid) ;;
  ex <- gets (fun s => exit_status tid (exited (res s))) ;;
  match ex with
  | Some st =>
      update_resources (fun w =>
        {| connections := connections w; contexts := contexts w;
           ranges := ranges w; input_helper := input_helper w;
           threads := threads w;
           exited := filter (fun p => negb (fst p =? tid)) (exited w) |}) ;;
      ret st
  | None => fun s => Blocks s
  end.

(** ** [start_native_thread] *)

(** What the platform answers to the calls of one [start_native_thread],
    in the order of the calls. *)
Record platform : Type := {
  open_ctrl : option Display;          (* XOpenDisplay for disp_ctrl *)
  open_data : option Display;          (* XOpenDisplay for disp_data *)
  query_version : bool;                (* XRecordQueryVersion(...) != 0 *)
  alloc_range : bool;                  (* XRecordAllocRange() != NULL *)
  create_context : XRecordContext;     (* XRecordCreateContext(...) *)
  enable : option (list delivery);     (* XRecordEnableContext in start *)
  spawn : option pthread_t;            (* pthread_create(...) == 0 *)
  capture : capture_progress           (* the new thread, see above *)
}.

Definition set_context (c : XRecordContext) : M unit :=
  update_handles (fun h =>
    {| disp_ctrl := disp_ctrl h; context := c;
       running_locked := running_locked h;
       control_locked := control_locked h;
       hook_thread_id := hook_thread_id h |}).

Definition set_disp_ctrl (d : option Display) : M unit :=
  update_handles (fun h =>
    {| disp_ctrl := d; context := context h;
       running_locked := running_locked h;
       control_locked := control_locked h;
       hook_thread_id := hook_thread_id h |}).

(** Lines 443-548: the displays, the extension, the range, the context,
    and the enable call that follows [XFree(range)].  The source writes
    [*status = RETURN_SUCCESS] there although [status] is an [int] in this
    function; it is read as the assignment to [status]. *)
Definition setup (p : platform) : M status :=
  ctrl <- XOpenDisplay Caller (open_ctrl p) ;;
  set_disp_ctrl ctrl ;;
  disp_data <- XOpenDisplay Caller (open_data p) ;;
  match ctrl, disp_data with
  | Some dc, Some dd =>
      v <- XRecordQueryVersion Caller dc (query_version p) ;;
      if v then
        range <- XRecordAllocRange Caller (alloc_range p) ;;
        if range then
          c <- XRecordCreateContext Caller dd (create_context p) ;;
          set_context c ;;
          XFree Caller ;;
          c' <- gets (fun s => context (gh s)) ;;
          r <- XRecordEnableContext Caller c' (enable p) ;;
          ret (if negb (r =? 0) then RETURN_SUCCESS else RETURN_FAILURE)
        else ret RETURN_FAILURE
      else ret RETURN_FAILURE
  | _, _ => ret RETURN_FAILURE
  end.

(** Lines 570-598: the caller waits for the control mutex, which the new
    thread releases from [callback_proc] or at the end of [thread_proc],
    and then asks whether the hook is running. *)
Definition handshake (p : platform) (tid : pthread_t) : M status :=
  run_capture tid (capture p) ;;
  r <- pthread_mutex_lock hook_control_mutex ;;
  (if r =? 0 then pthread_mutex_unlock hook_control_mutex ;; ret tt
   else ret tt) ;;
  running <- is_hook_thread_running ;;
  if running then ret RETURN_SUCCESS
  else
    id <- gets (fun s => hook_thread_id (gh s)) ;;
    pthread_join Caller id.

Definition start_native_thread (p : platform) : M status :=
  pthread_mutex_lock hook_control_mutex ;;
  running <- is_hook_thread_running ;;
  st <-
    (if negb running then
       set_context 0 ;;
       st <- setup p ;;
       LoadInputHelper Caller ;;
       c <- gets (fun s => context (gh s)) ;;
       if negb (c =? 0) then
         t <- pthread_create Caller (spawn p) ;;
         match t with
         | Some tid => handshake p tid
         | None => ret st
         end
       else ret st
     else ret RETURN_FAILURE) ;;
  pthread_mutex_unlock hook_control_mutex ;;
  ret st.

End Hook.

(** ** Sample platform for concrete runs *)

Module Sample.

(** X11 button masks (X.h) moved down to bits 4 to 8, the four keyboard
    modifiers on bits 0 to 3. *)
Definition mask (native : Z) : Z :=
  Z.lor (Z.land native 1)
    (Z.lor (Z.shiftl (Z.land (Z.shiftr native 2) 1) 1)
       (Z.lor (Z.shiftl (Z.land (Z.shiftr native 6) 1) 2)
          (Z.lor (Z.shiftl (Z.land (Z.shiftr native 3) 1) 3)
             (Z.shiftl (Z.land (Z.shiftr native 8) 31) 4)))).

Definition externals : Externals :=
  {| KeyCodeToKeySym := fun code _ => code;
     KeySymToUnicode := fun sym => if (32 <=? sym) && (sym <? 127) then sym else 0;
     NativeToJKey := fun sym => {| keycode := sym; location := 1 |};
     NativeToJEventMask := mask;
     NativeToJButton := fun b => b;
     GetMultiClickTime := 200;
     CHAR_UNDEFINED := 65535;
     VK_UNDEFINED := 0;
     WHEEL_UNIT_SCROLL := 1 |}.

Definition Button1Mask : Z := 256.

Definition at_ms (ms : Z) : timeval :=
  {| tv_sec := ms / 1000; tv_usec := (ms mod 1000) * 1000 |}.

Definition event (ty code st : Z) (ms : Z) : delivery :=
  {| hook := {| hook_category := XRecordFromServer;
                hook_data := {| type := ty; detail := code; state := st;
                                rootX := 10; rootY := 20 |} |};
     jni_ok := true;
     now := at_ms ms |}.

Definition press (code ms : Z) : delivery := event ButtonPress code 0 ms.
Definition release (code ms : Z) : delivery := event ButtonRelease code 0 ms.
Definition motion (st ms : Z) : delivery := event MotionNotify 0 st ms.

(** The hook while it captures: both displays open, a context, the
    running mutex held by the capture thread. *)
Definition capturing : system :=
  {| gm := mouse_init;
     gh := {| disp_ctrl := Some 1; context := 7; running_locked := true;
              control_locked := false; hook_thread_id := 3 |};
     res := {| connections := [1; 2]; contexts := [7]; ranges := 0;
               input_helper := true; threads := [3]; exited := [] |};
     sink := []; calls := [] |}.

End Sample.

(** ** Vocabulary of the statements *)

Definition event_data (d : delivery) : bool :=
  match hook_category (hook d) with
  | XRecordFromServer | XRecordFromClient => true
  | _ => false
  end.

(** A delivery the callback can process: protocol data, on a thread that is
    attached to the Java machine. *)
Definition live (d : delivery) : bool := event_data d && jni_ok d.

(** The hook captures: [disp_ctrl] is set and the running mutex is held. *)
Definition capturing (s : system) : Prop :=
  disp_ctrl (gh s) <> None /\ running_locked (gh s) = true.

(** Neither mutex is held: no start or stop is in progress, no capture. *)
Definition idle (s : system) : Prop :=
  running_locked (gh s) = false /\ control_locked (gh s) = false.

(** The capture thread holds the running mutex; no start or stop is in
    progress. *)
Definition running (s : system) : Prop :=
  running_locked (gh s) = true /\ control_locked (gh s) = false.

Definition event_type (d : delivery) : Z := type (hook_data (hook d)).
Definition event_code (d : delivery) : Z := detail (hook_data (hook d)).
Definition event_mask (d : delivery) : Z := state (hook_data (hook d)).
Definition event_root_x (d : delivery) : Z := rootX (hook_data (hook d)).
Definition event_root_y (d : delivery) : Z := rootY (hook_data (hook d)).
Definition event_time (d : delivery) : Z := event_time_of (now d).

Definition is_motion (d : delivery) : bool :=
  event_data d && (event_type d =? MotionNotify).

(** The mouse globals hold values of their C types, and the last click is
    not before the epoch. *)
Definition mouse_ok (m : mouse) : Prop :=
  0 <= click_count m <= CInt.USHRT_MAX /\ 0 <= click_time m <= CInt.LONG_MAX.

Section Observations.

Variable X : Externals.

(** What the callback does with a delivery it processes. *)
Definition handled (d : delivery) (s : system) : system :=
  let r := switch_event_type X (event_time d) (hook_data (hook d)) (gm s) in
  with_sink (sink s ++ snd r) (with_mouse (fst r) s).

(** The state in which one call of the callback ends. *)
Definition after (d : delivery) (s : system) : system :=
  final (callback_proc X d s).

(** The objects that one call of the callback gives to the sink. *)
Definition emitted (d : delivery) (s : system) : list NativeEvent :=
  skipn (length (sink s)) (sink (after d s)).

(** The state in which the callback ends on a list of deliveries. *)
Definition after_all (ds : list delivery) (s : system) : system :=
  final (callbacks X ds s).

End Observations.

(** The click counter in the words of the specification (section 4.2),
    with an unbounded count. *)
Module Spec.

Record tracker : Type := { count : Z; last_click_time : Z }.

Definition on_press (interval t : Z) (g : tracker) : tracker :=
  {| count := if t - last_click_time g <=? interval
              then count g + 1 else 1;
     last_click_time := t |}.

Definition on_motion (interval t : Z) (g : tracker) : tracker :=
  {| count := if negb (count g =? 0) && (interval <? t - last_click_time g)
              then 0 else count g;
     last_click_time := last_click_time g |}.

Definition step (interval : Z) (g : tracker) (d : delivery) : tracker :=
  if event_type d =? ButtonPress then on_press interval (event_time d) g
  else if event_type d =? MotionNotify then on_motion interval (event_time d) g
  else g.

Definition run (interval : Z) (ds : list delivery) (g : tracker) : tracker :=
  fold_left (step interval) ds g.

Definition of_mouse (m : mouse) : tracker :=
  {| count := click_count m; last_click_time := click_time m |}.

(** A mouse-button bit in the upper nibble of a modifier mask whose low
    nibble holds the keyboard modifiers (section 3). *)
Definition button_held (jmodifiers : Z) : bool :=
  negb (Z.land jmodifiers 240 =? 0).

End Spec.

(** The counter of the code is the counter of the specification, reduced
    to an [unsigned short]. *)
Definition tracks (m : mouse) (g : Spec.tracker) : Prop :=
  click_time m = Spec.last_click_time g /\
  click_count m = CInt.to_ushort (Spec.count g) /\
  0 <= click_time m <= CInt.LONG_MAX.

(** The log of platform calls only grows. *)
Definition extends (s s' : system) : Prop :=
  exists l, calls s' = calls s ++ l.

Definition monotone {A : Type} (c : M A) : Prop :=
  forall s, extends s (final (c s)).

(** The displays that the two [XOpenDisplay] calls of a start return. *)
Definition opened (p : platform) : list Display :=
  match open_ctrl p with Some d => [d] | None => [] end ++
  match open_data p with Some d => [d] | None => [] end.

(** The calls of a start whose setup succeeds, up to the enable call. *)
Definition setup_calls (dc dd : Display) (c : XRecordContext)
    : list (thread * call) :=
  [(Caller, CallXOpenDisplay); (Caller, CallXOpenDisplay);
   (Caller, CallXRecordQueryVersion dc); (Caller, CallXRecordAllocRange);
   (Caller, CallXRecordCreateContext dd); (Caller, CallXFree);
   (Caller, CallXRecordEnableContext c)].

Module Faults.

Definition start_of_data : delivery :=
  {| hook := {| hook_category := XRecordStartOfData;
                hook_data := {| type := 0; detail := 0; state := 0;
                                rootX := 0; rootY := 0 |} |};
     jni_ok := true;
     now := Sample.at_ms 0 |}.

Definition end_of_data : delivery :=
  {| hook := {| hook_category := XRecordEndOfData;
                hook_data := {| type := 0; detail := 0; state := 0;
                                rootX := 0; rootY := 0 |} |};
     jni_ok := true;
     now := Sample.at_ms 0 |}.

(** Every call of the setup succeeds; the enable call in
    [start_native_thread] records until the context is disabled, and the
    new thread then enables the context again. *)
Definition none : platform :=
  {| open_ctrl := Some 1; open_data := Some 2; query_version := true;
     alloc_range := true; create_context := 7;
     enable := Some [start_of_data; Sample.press 1 1000; end_of_data];
     spawn := Some 3;
     capture := InEnable [start_of_data] |}.

(** The record extension is not available. *)
Definition no_extension : platform :=
  {| open_ctrl := Some 1; open_data := Some 2; query_version := false;
     alloc_range := true; create_context := 7;
     enable := None; spawn := Some 3; capture := Exited None |}.

End Faults.

(** ** More vocabulary, and [stop_hook_thread] *)

(** What one object given to the sink carries as its time and as its
    modifiers. *)
Definition when_of (e : NativeEvent) : Z :=
  match e with
  | NativeKeyEvent _ w _ _ _ _ _ => w
  | NativeMouseButtonEvent _ w _ _ _ _ _ => w
  | NativeMouseMotionEvent _ w _ _ _ _ => w
  | NativeMouseWheelEvent _ w _ _ _ _ _ _ _ => w
  end.

Definition modifiers_of (e : NativeEvent) : Z :=
  match e with
  | NativeKeyEvent _ _ m _ _ _ _ => m
  | NativeMouseButtonEvent _ _ m _ _ _ _ => m
  | NativeMouseMotionEvent _ _ m _ _ _ => m
  | NativeMouseWheelEvent _ _ m _ _ _ _ _ _ => m
  end.

(** [XCloseDisplay(d)] *)
Definition XCloseDisplay (t : thread) (d : Display) : M unit :=
  log t (CallXCloseDisplay d) ;;
  update_resources (fun w =>
    {| connections := filter (fun x => negb (x =? d)) (connections w);
       contexts := contexts w; ranges := ranges w;
       input_helper := input_helper w;
       threads := threads w; exited := exited w |}).

(** [XRecordFreeContext(disp_ctrl, context)] *)
Definition XRecordFreeContext (t : thread) (c : XRecordContext) : M unit :=
  log t (CallXRecordFreeContext c) ;;
  update_resources (fun w =>
    {| connections := connections w;
       contexts := filter (fun x => negb (x =? c)) (contexts w);
       ranges := ranges w; input_helper := input_helper w;
       threads := threads w; exited := exited w |}).

(** [UnloadInputHelper()] *)
Definition UnloadInputHelper : M unit :=
  update_resources (fun w =>
    {| connections := connections w; contexts := contexts w;
       ranges := ranges w; input_helper := false;
       threads := threads w; exited := exited w |}).

(** What the platform answers during one [stop_hook_thread].  [disable] is
    [XRecordDisableContext(...) != 0].  [wind_down] is what the capture
    thread does once its context is disabled: [Some ds], the enable call in
    [thread_proc] gives [ds] to the callback and returns non-zero; [None],
    the thread stays inside the enable call. *)
Record teardown : Type := {
  disable : bool;
  wind_down : option (list delivery)
}.

Section Stop.

Variable X : Externals.

(** The end of [thread_proc] for a thread whose enable call was entered:
    the last deliveries, [*status = RETURN_SUCCESS], the release of the
    control mutex and [pthread_exit]. *)
Definition finish_capture (tid : pthread_t) (ds : list delivery) : M status :=
  callbacks X ds ;;
  pthread_mutex_unlock hook_control_mutex ;;
  pthread_exit tid RETURN_SUCCESS.

(** [stop_hook_thread].  [disp_data] is the file-scope variable of that
    name, which no header among the sources declares and which
    [start_native_thread] hides behind a local; its value comes in as an
    argument and goes out with the status.  [XRecordDisableContext], [XSync]
    and [UnloadInputHelper] have no entry in the log; they are seen through
    their results and effects. *)
Definition stop_hook_thread (t : teardown) (disp_data : option Display)
    : M (status * option Display) :=
  pthread_mutex_lock hook_control_mutex ;;
  running <- is_hook_thread_running ;;
  r <-
    (if running then
       st <-
         (if disable t then
            id <- gets (fun s => hook_thread_id (gh s)) ;;
            match wind_down t with
            | Some ds => finish_capture id ds ;; ret tt
            | None => ret tt
            end ;;
            pthread_join Caller id
          else ret RETURN_FAILURE) ;;
       c <- gets (fun s => context (gh s)) ;;
       XRecordFreeContext Caller c ;;
       UnloadInputHelper ;;
       ctrl <- gets (fun s => disp_ctrl (gh s)) ;;
       match ctrl with
       | Some d => XCloseDisplay Caller d ;; set_disp_ctrl None
       | None => ret tt
       end ;;
       match disp_data with
       | Some d => XCloseDisplay Caller d
       | None => ret tt
       end ;;
       ret (st, None)
     else ret (RETURN_FAILURE, disp_data)) ;;
  pthread_mutex_unlock hook_control_mutex ;;
  ret r.

End Stop.

(** The state apart from the event sink and the mouse globals: what a call
    of the callback on protocol data must leave alone. *)
Definition same_hook (s s' : system) : Prop :=
  gh s' = gh s /\ res s' = res s /\ calls s' = calls s.

(** The sink of [s'] is the sink of [s] with objects added at its end. *)
Definition sink_grows (s s' : system) : Prop :=
  exists objs, sink s' = sink s ++ objs.

(** Button codes that neither report a button nor a wheel notch. *)
Definition is_unreported_code (event_code : Z) : bool :=
  negb (is_button_code event_code) && negb (is_wheel_code event_code).

(** * Properties *)

(** ** Machine integers *)

Lemma to_long_id x : - 2 ^ 63 <= x <= CInt.LONG_MAX -> CInt.to_long x = x.
Proof.
  unfold CInt.to_long, CInt.to_signed, CInt.LONG_MAX. intros H.
  change (64 - 1) with 63.
  rewrite Z.mod_small; lia.
Qed.

Lemma to_long_range x : - 2 ^ 63 <= CInt.to_long x <= CInt.LONG_MAX.
Proof.
  unfold CInt.to_long, CInt.to_signed, CInt.LONG_MAX. change (64 - 1) with 63.
  pose proof (Z.mod_pos_bound (x + 2 ^ 63) (2 ^ 64) ltac:(lia)). lia.
Qed.

Lemma to_ushort_small x : 0 <= x <= CInt.USHRT_MAX -> CInt.to_ushort x = x.
Proof.
  unfold CInt.to_ushort, CInt.to_unsigned, CInt.USHRT_MAX. intros H.
  rewrite Z.mod_small; lia.
Qed.

Lemma to_ushort_range x : 0 <= CInt.to_ushort x <= CInt.USHRT_MAX.
Proof.
  unfold CInt.to_ushort, CInt.to_unsigned, CInt.USHRT_MAX.
  pose proof (Z.mod_pos_bound x (2 ^ 16) ltac:(lia)). lia.
Qed.

Lemma to_ushort_succ x :
  CInt.to_ushort (CInt.to_ushort x + 1) = CInt.to_ushort (x + 1).
Proof.
  unfold CInt.to_ushort, CInt.to_unsigned.
  rewrite Z.add_mod_idemp_l by lia. reflexivity.
Qed.

Lemma event_time_range d : - 2 ^ 63 <= event_time d <= CInt.LONG_MAX.
Proof. apply to_long_range. Qed.

(** The difference of two times that are not before the epoch is taken
    without overflow. *)
Lemma elapsed_exact t c :
  0 <= t <= CInt.LONG_MAX -> 0 <= c <= CInt.LONG_MAX ->
  CInt.to_long (t - c) = t - c.
Proof. intros Ht Hc. apply to_long_id. unfold CInt.LONG_MAX in *. lia. Qed.

(** ** The callback on protocol data *)

Section CallbackFacts.

Variable X : Externals.

Lemma callback_proc_live d s :
  capturing s -> live d = true ->
  callback_proc X d s = Returns tt (handled X d s).
Proof.
  intros [Hd Hr] Hl. unfold live, event_data in Hl.
  apply andb_true_iff in Hl as [Hc Hj].
  unfold callback_proc, handled, event_time.
  destruct (hook_category (hook d)); try discriminate Hc;
    unfold bind, gets, pthread_mutex_trylock, locked;
    (destruct (disp_ctrl (gh s)); [| congruence]);
    rewrite Hj, Hr; cbn;
    destruct (switch_event_type X (event_time_of (now d))
                (hook_data (hook d)) (gm s)); reflexivity.
Qed.

Lemma handled_capturing d s : capturing s -> capturing (handled X d s).
Proof. intros H. exact H. Qed.

Lemma handled_gm d s :
  gm (handled X d s) =
  fst (switch_event_type X (event_time d) (hook_data (hook d)) (gm s)).
Proof. reflexivity. Qed.

Lemma handled_sink d s :
  sink (handled X d s) =
  sink s ++ snd (switch_event_type X (event_time d) (hook_data (hook d)) (gm s)).
Proof. reflexivity. Qed.

Lemma skipn_length_app {A : Type} (l l' : list A) :
  skipn (length l) (l ++ l') = l'.
Proof. induction l; simpl; auto. Qed.

Lemma after_live d s :
  capturing s -> live d = true -> after X d s = handled X d s.
Proof.
  intros Hc Hl. unfold after. rewrite callback_proc_live; auto.
Qed.

Lemma emitted_live d s :
  capturing s -> live d = true ->
  emitted X d s =
  snd (switch_event_type X (event_time d) (hook_data (hook d)) (gm s)).
Proof.
  intros Hc Hl. unfold emitted. rewrite after_live, handled_sink; auto.
  apply skipn_length_app.
Qed.

Lemma callbacks_live ds : forall s,
  capturing s -> forallb live ds = true ->
  callbacks X ds s = Returns tt (fold_left (fun s d => handled X d s) ds s).
Proof.
  induction ds as [| d ds IH]; intros s Hc Hl; simpl in *.
  - reflexivity.
  - apply andb_true_iff in Hl as [Hd Hds].
    unfold bind. rewrite callback_proc_live by assumption.
    apply IH; auto using handled_capturing.
Qed.

Lemma callback_proc_returns d s :
  capturing s -> live d = true -> returned (callback_proc X d s) = true.
Proof. intros Hc Hl. rewrite callback_proc_live by assumption. reflexivity. Qed.

Lemma callbacks_return ds s :
  capturing s -> forallb live ds = true -> returned (callbacks X ds s) = true.
Proof. intros Hc Hl. rewrite callbacks_live by assumption. reflexivity. Qed.

Lemma after_all_live ds s :
  capturing s -> forallb live ds = true ->
  after_all X ds s = fold_left (fun s d => handled X d s) ds s.
Proof.
  intros Hc Hl. unfold after_all. rewrite callbacks_live; auto.
Qed.

Lemma after_all_snoc ds d s :
  capturing s -> forallb live ds = true -> live d = true ->
  after_all X (ds ++ [d]) s = after X d (after_all X ds s).
Proof.
  intros Hc Hl Hd.
  rewrite !after_all_live; auto.
  - rewrite fold_left_app. simpl. rewrite after_live; auto.
    clear Hd. revert s Hc Hl.
    induction ds as [| e ds IH]; intros s Hc Hl; simpl in *; auto.
    apply andb_true_iff in Hl as [He Hds]. apply IH; auto.
  - rewrite forallb_app, Hl. simpl. rewrite Hd. reflexivity.
Qed.

Lemma after_all_capturing ds s :
  capturing s -> forallb live ds = true -> capturing (after_all X ds s).
Proof.
  intros Hc Hl. rewrite after_all_live by assumption.
  revert s Hc Hl.
  induction ds as [| e ds IH]; intros s Hc Hl; simpl in *; auto.
  apply andb_true_iff in Hl as [He Hds]. apply IH; auto.
Qed.

End CallbackFacts.

(** ** The switch on the event type, case by case *)

Section SwitchFacts.

Variable X : Externals.
Variables (t : Z) (data : XRecordDatum) (m : mouse).

Let jmodifiers := NativeToJEventMask X (state data).

Lemma switch_press_mouse :
  type data = ButtonPress ->
  fst (switch_event_type X t data m) = track_click X t m.
Proof.
  intros H. unfold switch_event_type. rewrite H. cbn.
  destruct (is_button_code (detail data)); [reflexivity |].
  destruct (is_wheel_code (detail data)); reflexivity.
Qed.

Lemma switch_press_button :
  type data = ButtonPress -> is_button_code (detail data) = true ->
  snd (switch_event_type X t data m) =
  [NativeMouseButtonEvent NATIVE_MOUSE_PRESSED t jmodifiers
     (rootX data) (rootY data) (click_count (track_click X t m))
     (NativeToJButton X (detail data))].
Proof.
  intros H Hb. unfold switch_event_type. rewrite H. cbn.
  rewrite Hb. reflexivity.
Qed.

Lemma switch_press_wheel :
  type data = ButtonPress -> is_wheel_code (detail data) = true ->
  snd (switch_event_type X t data m) =
  [NativeMouseWheelEvent NATIVE_MOUSE_WHEEL t jmodifiers
     (rootX data) (rootY data) (click_count (track_click X t m))
     (WHEEL_UNIT_SCROLL X) 3
     (if detail data =? WheelUp then -1 else 1)].
Proof.
  intros H Hw. unfold switch_event_type. rewrite H. cbn.
  assert (Hb : is_button_code (detail data) = false).
  { unfold is_wheel_code, is_button_code, WheelUp, WheelDown in *.
    apply orb_true_iff in Hw as [Hw | Hw]; apply Z.eqb_eq in Hw;
      rewrite Hw; reflexivity. }
  rewrite Hb, Hw. reflexivity.
Qed.

Lemma switch_release_mouse :
  type data = ButtonRelease -> fst (switch_event_type X t data m) = m.
Proof.
  intros H. unfold switch_event_type. rewrite H. cbn.
  destruct (is_button_code (detail data)); reflexivity.
Qed.

Lemma switch_release_button :
  type data = ButtonRelease -> is_button_code (detail data) = true ->
  snd (switch_event_type X t data m) =
  NativeMouseButtonEvent NATIVE_MOUSE_RELEASED t jmodifiers
    (rootX data) (rootY data) (click_count m)
    (NativeToJButton X (detail data))
  :: (if mouse_dragged m then []
      else [NativeMouseButtonEvent NATIVE_MOUSE_CLICKED t jmodifiers
              (rootX data) (rootY data) (click_count m)
              (NativeToJButton X (detail data))]).
Proof.
  intros H Hb. unfold switch_event_type. rewrite H. cbn.
  rewrite Hb. reflexivity.
Qed.

Lemma switch_release_other :
  type data = ButtonRelease -> is_button_code (detail data) = false ->
  snd (switch_event_type X t data m) = [].
Proof.
  intros H Hb. unfold switch_event_type. rewrite H. cbn.
  rewrite Hb. reflexivity.
Qed.

Lemma switch_motion_mouse :
  type data = MotionNotify ->
  fst (switch_event_type X t data m) = track_motion X t jmodifiers m.
Proof. intros H. unfold switch_event_type. rewrite H. reflexivity. Qed.

Lemma switch_motion_event :
  type data = MotionNotify ->
  snd (switch_event_type X t data m) =
  [NativeMouseMotionEvent
     (if upper_half_set jmodifiers
      then NATIVE_MOUSE_DRAGGED else NATIVE_MOUSE_MOVED)
     t jmodifiers (rootX data) (rootY data)
     (click_count (track_motion X t jmodifiers m))].
Proof. intros H. unfold switch_event_type. rewrite H. reflexivity. Qed.

(** Only the motion case assigns to [mouse_dragged]. *)
Lemma switch_keeps_dragged :
  type data <> MotionNotify ->
  mouse_dragged (fst (switch_event_type X t data m)) = mouse_dragged m.
Proof.
  intros H. unfold switch_event_type.
  destruct (type data =? KeyPress);
    [destruct (KeySymToUnicode X _ =? 0); reflexivity |].
  destruct (type data =? KeyRelease); [reflexivity |].
  destruct (type data =? ButtonPress).
  { destruct (is_button_code (detail data)); [reflexivity |].
    destruct (is_wheel_code (detail data)); reflexivity. }
  destruct (type data =? ButtonRelease).
  { destruct (is_button_code (detail data)); reflexivity. }
  destruct (Z.eqb_spec (type data) MotionNotify); [contradiction | reflexivity].
Qed.

End SwitchFacts.

(** ** The click counter *)

Section ClickCounter.

Variable X : Externals.

Let interval := GetMultiClickTime X.

Lemma switch_other_mouse t data m :
  type data <> ButtonPress -> type data <> MotionNotify ->
  fst (switch_event_type X t data m) = m.
Proof.
  intros Hp Hm. unfold switch_event_type.
  destruct (type data =? KeyPress);
    [destruct (KeySymToUnicode X _ =? 0); reflexivity |].
  destruct (type data =? KeyRelease); [reflexivity |].
  destruct (Z.eqb_spec (type data) ButtonPress); [contradiction |].
  destruct (type data =? ButtonRelease).
  { destruct (is_button_code (detail data)); reflexivity. }
  destruct (Z.eqb_spec (type data) MotionNotify); [contradiction | reflexivity].
Qed.

Lemma track_click_count t m :
  0 <= t <= CInt.LONG_MAX -> 0 <= click_time m <= CInt.LONG_MAX ->
  click_count (track_click X t m) =
  if t - click_time m <=? interval
  then CInt.to_ushort (click_count m + 1) else 1.
Proof.
  intros Ht Hm. unfold track_click; cbn.
  rewrite elapsed_exact by assumption. reflexivity.
Qed.

Lemma track_click_time t m :
  0 <= t <= CInt.LONG_MAX -> click_time (track_click X t m) = t.
Proof.
  intros Ht. unfold track_click; cbn. apply to_long_id.
  unfold CInt.LONG_MAX in *. lia.
Qed.

Lemma track_motion_count t jm m :
  0 <= t <= CInt.LONG_MAX -> 0 <= click_time m <= CInt.LONG_MAX ->
  click_count (track_motion X t jm m) =
  if negb (click_count m =? 0) && (interval <? t - click_time m)
  then 0 else click_count m.
Proof.
  intros Ht Hm. unfold track_motion; cbn.
  rewrite elapsed_exact by assumption. reflexivity.
Qed.

Lemma track_click_ok t m :
  0 <= t <= CInt.LONG_MAX -> mouse_ok m -> mouse_ok (track_click X t m).
Proof.
  intros Ht [Hc Hm]. split.
  - unfold track_click; cbn.
    destruct (_ <=? _); [apply to_ushort_range | unfold CInt.USHRT_MAX; lia].
  - rewrite track_click_time; assumption.
Qed.

Lemma tracks_step d m g :
  tracks m g -> 0 <= event_time d ->
  tracks (fst (switch_event_type X (event_time d) (hook_data (hook d)) m))
         (Spec.step interval g d).
Proof.
  intros (Ht & Hc & Hr) Hd.
  assert (Hd' : 0 <= event_time d <= CInt.LONG_MAX)
    by (pose proof (event_time_range d); lia).
  unfold Spec.step, event_type.
  destruct (Z.eqb_spec (type (hook_data (hook d))) ButtonPress) as [Hp | Hp].
  - rewrite switch_press_mouse by assumption.
    repeat split.
    + rewrite track_click_time by assumption. reflexivity.
    + rewrite track_click_count by assumption. cbn. rewrite <- Ht.
      destruct (_ <=? _); [| reflexivity].
      rewrite Hc. apply to_ushort_succ.
    + rewrite track_click_time; lia.
    + rewrite track_click_time; lia.
  - destruct (Z.eqb_spec (type (hook_data (hook d))) MotionNotify) as [Hm | Hm].
    + rewrite switch_motion_mouse by assumption.
      repeat split; cbn; try tauto; try lia.
      rewrite elapsed_exact by assumption. rewrite <- Ht. unfold interval.
      destruct (GetMultiClickTime X <? event_time d - click_time m); cbn.
      * rewrite !andb_true_r.
        assert (H0 : CInt.to_ushort 0 = 0) by reflexivity.
        destruct (Z.eqb_spec (click_count m) 0) as [Hz | Hz];
          destruct (Z.eqb_spec (Spec.count g) 0) as [Hg | Hg]; cbn;
          congruence.
      * rewrite !andb_false_r. assumption.
    + rewrite switch_other_mouse by assumption. unfold tracks. tauto.
Qed.

Lemma tracks_run ds : forall s g,
  tracks (gm s) g ->
  Forall (fun d => 0 <= event_time d) ds ->
  tracks (gm (fold_left (fun s d => handled X d s) ds s))
         (Spec.run interval ds g).
Proof.
  induction ds as [| d ds IH]; intros s g Hg Hds; simpl.
  - assumption.
  - inversion Hds as [| ? ? Hd Hds']; subst.
    apply IH; [| assumption].
    rewrite handled_gm. apply tracks_step; assumption.
Qed.

End ClickCounter.

Lemma spec_press_step interval g d :
  event_type d = ButtonPress ->
  Spec.step interval g d = Spec.on_press interval (event_time d) g.
Proof. intros H. unfold Spec.step. rewrite H. reflexivity. Qed.

Lemma after_all_tracks (X : Externals) (s : system) ds :
  capturing s -> mouse_ok (gm s) -> forallb live ds = true ->
  Forall (fun d => 0 <= event_time d) ds ->
  tracks (gm (after_all X ds s))
         (Spec.run (GetMultiClickTime X) ds (Spec.of_mouse (gm s))).
Proof.
  intros Hc [Hn Ht] Hl Hds. rewrite after_all_live by assumption.
  apply tracks_run; [| assumption].
  split; [reflexivity | split; [| assumption]].
  cbn. symmetry. apply to_ushort_small. assumption.
Qed.

(** C1. While the hook captures, the click counter follows the rule of the
    specification on every stream of events.  A button press at time [t]
    sets [click_time] to [t]; it increments [click_count] (in the arithmetic
    of [unsigned short], so by exactly one below 65535) when
    [t - click_time <= GetMultiClickTime()] and sets it to 1 otherwise.  A
    motion event with a non-zero [click_count] later than the interval after
    [click_time] sets [click_count] to 0, and leaves it alone otherwise.
    Three presses, each within the interval of the one before, count 1, 2,
    3 and a fourth press after the interval counts 1.  On every stream the
    callback returns from every call, and the counter is the one of the
    specification, reduced to 16 bits. *)
Theorem click_counter_follows_spec (X : Externals) (s : system) :
  capturing s -> mouse_ok (gm s) ->
  let interval := GetMultiClickTime X in
  (forall ds,
      forallb live ds = true -> returned (callbacks X ds s) = true)
  /\
  (forall d,
      live d = true -> event_type d = ButtonPress -> 0 <= event_time d ->
      let m := gm s in
      let m' := gm (after X d s) in
      click_time m' = event_time d /\
      (event_time d - click_time m <= interval ->
       click_count m' = CInt.to_ushort (click_count m + 1) /\
       (click_count m < CInt.USHRT_MAX ->
        click_count m' = click_count m + 1)) /\
      (interval < event_time d - click_time m -> click_count m' = 1))
  /\
  (forall d,
      live d = true -> event_type d = MotionNotify -> 0 <= event_time d ->
      let m := gm s in
      let m' := gm (after X d s) in
      click_time m' = click_time m /\
      (click_count m <> 0 -> interval < event_time d - click_time m ->
       click_count m' = 0) /\
      (click_count m = 0 \/ event_time d - click_time m <= interval ->
       click_count m' = click_count m))
  /\
  (forall d1 d2 d3 d4,
      forallb live [d1; d2; d3; d4] = true ->
      Forall (fun d => event_type d = ButtonPress /\ 0 <= event_time d)
        [d1; d2; d3; d4] ->
      click_count (gm s) = 0 \/
        interval < event_time d1 - click_time (gm s) ->
      event_time d2 - event_time d1 <= interval ->
      event_time d3 - event_time d2 <= interval ->
      interval < event_time d4 - event_time d3 ->
      click_count (gm (after_all X [d1] s)) = 1 /\
      click_count (gm (after_all X [d1; d2] s)) = 2 /\
      click_count (gm (after_all X [d1; d2; d3] s)) = 3 /\
      click_count (gm (after_all X [d1; d2; d3; d4] s)) = 1)
  /\
  (forall ds,
      forallb live ds = true ->
      Forall (fun d => 0 <= event_time d) ds ->
      let g := Spec.run interval ds (Spec.of_mouse (gm s)) in
      click_time (gm (after_all X ds s)) = Spec.last_click_time g /\
      click_count (gm (after_all X ds s)) = CInt.to_ushort (Spec.count g)).
Proof.
  intros Hc Hok interval. pose proof Hok as [Hn Ht].
  assert (Htime : forall d, 0 <= event_time d ->
                            0 <= event_time d <= CInt.LONG_MAX).
  { intros d Hd. pose proof (event_time_range d). lia. }
  split; [intros ds Hl; apply callbacks_return; assumption |].
  split; [| split; [| split]].
  - intros d Hl Hp Hd m m'. subst m m'.
    rewrite after_live, handled_gm, switch_press_mouse by assumption.
    rewrite track_click_time, track_click_count by auto.
    split; [reflexivity |]. fold interval. split.
    + intros Hle. apply Z.leb_le in Hle. rewrite Hle. split; [reflexivity |].
      intros Hlt. apply to_ushort_small. unfold CInt.USHRT_MAX in *. lia.
    + intros Hgt. apply Z.leb_gt in Hgt. rewrite Hgt. reflexivity.
  - intros d Hl Hm Hd m m'. subst m m'.
    rewrite after_live, handled_gm, switch_motion_mouse by assumption.
    rewrite track_motion_count by auto. fold interval.
    split; [reflexivity |]. split.
    + intros Hnz Hgt. apply Z.eqb_neq in Hnz. apply Z.ltb_lt in Hgt.
      rewrite Hnz, Hgt. reflexivity.
    + intros [Hz | Hle].
      * rewrite Hz. reflexivity.
      * apply Z.ltb_ge in Hle. rewrite Hle, andb_false_r. reflexivity.
  - intros d1 d2 d3 d4 Hl Hds Hfresh H12 H23 H34.
    cbn in Hl. rewrite andb_true_r in Hl.
    apply andb_true_iff in Hl as [L1 Hl].
    apply andb_true_iff in Hl as [L2 Hl].
    apply andb_true_iff in Hl as [L3 L4].
    inversion Hds as [| ? ? [P1 T1] Hds1]; subst.
    inversion Hds1 as [| ? ? [P2 T2] Hds2]; subst.
    inversion Hds2 as [| ? ? [P3 T3] Hds3]; subst.
    inversion Hds3 as [| ? ? [P4 T4] _]; subst.
    assert (G1 : Spec.count (Spec.run interval [d1] (Spec.of_mouse (gm s))) = 1).
    { cbn [Spec.run fold_left]. rewrite spec_press_step by assumption. cbn.
      destruct (Z.leb_spec (event_time d1 - click_time (gm s)) interval);
        [| reflexivity].
      destruct Hfresh as [Hz | Hgt]; [rewrite Hz; reflexivity | lia]. }
    assert (G2 : Spec.count (Spec.run interval [d1; d2] (Spec.of_mouse (gm s))) = 2).
    { cbn [Spec.run fold_left] in *.
      rewrite (spec_press_step _ _ _ P2). cbn [Spec.on_press Spec.count].
      rewrite G1. rewrite (spec_press_step _ _ _ P1).
      cbn [Spec.on_press Spec.last_click_time].
      apply Z.leb_le in H12. rewrite H12. reflexivity. }
    assert (G3 : Spec.count (Spec.run interval [d1; d2; d3] (Spec.of_mouse (gm s))) = 3).
    { cbn [Spec.run fold_left] in *.
      rewrite (spec_press_step _ _ _ P3). cbn [Spec.on_press Spec.count].
      rewrite G2. rewrite (spec_press_step _ _ _ P2).
      cbn [Spec.on_press Spec.last_click_time].
      apply Z.leb_le in H23. rewrite H23. reflexivity. }
    assert (G4 : Spec.count (Spec.run interval [d1; d2; d3; d4] (Spec.of_mouse (gm s))) = 1).
    { cbn [Spec.run fold_left] in *.
      rewrite (spec_press_step _ _ _ P4). cbn [Spec.on_press Spec.count].
      rewrite (spec_press_step _ _ _ P3).
      cbn [Spec.on_press Spec.last_click_time].
      apply Z.leb_gt in H34. rewrite H34. reflexivity. }
    assert (R : forall ds n,
               forallb live ds = true ->
               Forall (fun d => 0 <= event_time d) ds ->
               Spec.count (Spec.run interval ds (Spec.of_mouse (gm s))) = n ->
               0 <= n <= CInt.USHRT_MAX ->
               click_count (gm (after_all X ds s)) = n).
    { intros ds n Hl Hd Hn' Hr.
      destruct (after_all_tracks X s ds Hc Hok Hl Hd) as (_ & Hcount & _).
      fold interval in Hcount. rewrite Hcount, Hn'.
      apply to_ushort_small. assumption. }
    unfold CInt.USHRT_MAX in R.
    repeat split; apply R; cbn; rewrite ?L1, ?L2, ?L3, ?L4;
      repeat constructor; auto; lia.
  - intros ds Hl Hd g.
    destruct (after_all_tracks X s ds Hc Hok Hl Hd) as (Htm & Hcount & _).
    split; assumption.
Qed.

(** Closed facts about concrete runs are settled by evaluation. *)
Ltac evaluate :=
  vm_compute;
  first [ reflexivity
        | discriminate
        | (intro; discriminate)
        | (split; [intro; discriminate | reflexivity])
        | (split; intro; discriminate) ].

Lemma sample_capturing : capturing Sample.capturing.
Proof. split; [discriminate | reflexivity]. Defined.

Lemma sample_mouse_ok : mouse_ok (gm Sample.capturing).
Proof. unfold mouse_ok; split; evaluate. Defined.

Lemma click_counter_follows_spec_witness :
  capturing Sample.capturing /\ mouse_ok (gm Sample.capturing) /\
  let X := Sample.externals in
  let s := Sample.capturing in
  click_count (gm (after X (Sample.press 1 1000) s)) = 1 /\
  click_count (gm (after_all X [Sample.press 1 1000] s)) = 1 /\
  click_count
    (gm (after_all X [Sample.press 1 1000; Sample.press 1 1100] s)) = 2 /\
  click_count
    (gm (after_all X [Sample.press 1 1000; Sample.press 1 1100;
                      Sample.press 1 1250] s)) = 3 /\
  click_count
    (gm (after_all X [Sample.press 1 1000; Sample.press 1 1100;
                      Sample.press 1 1250; Sample.press 1 2000] s)) = 1.
Proof.
  split; [exact sample_capturing |]. split; [exact sample_mouse_ok |].
  intros X s.
  destruct (click_counter_follows_spec X s sample_capturing sample_mouse_ok)
    as (_ & Hpress & _ & Hfour & _).
  split.
  - destruct (Hpress (Sample.press 1 1000)) as (_ & _ & Hreset);
      [evaluate | evaluate | evaluate |].
    apply Hreset. evaluate.
  - apply Hfour.
    + evaluate.
    + repeat constructor; evaluate.
    + left. evaluate.
    + evaluate.
    + evaluate.
    + evaluate.
Defined.

(** ** Motion: dragged or moved *)

Lemma upper_half_nibble_table :
  forallb (fun n => Bool.eqb (upper_half_set (Z.of_nat n))
                             (Spec.button_held (Z.of_nat n)))
          (seq 0 256) = true.
Proof. vm_compute. reflexivity. Qed.

(** On a mask of one byte the test of the code, [jmodifiers >> 4 > 0], is
    the test for a bit in the upper nibble. *)
Lemma upper_half_is_upper_nibble jm :
  0 <= jm < 256 -> upper_half_set jm = Spec.button_held jm.
Proof.
  intros H.
  pose proof upper_half_nibble_table as T.
  rewrite forallb_forall in T.
  specialize (T (Z.to_nat jm)).
  rewrite Z2Nat.id in T by lia.
  apply eqb_prop, T, in_seq. lia.
Qed.

(** On a mask that is not negative the test of the code holds exactly when
    some bit above the low nibble is set. *)
Lemma upper_half_set_bits jm :
  0 <= jm ->
  upper_half_set jm = true <-> exists i, 4 <= i /\ Z.testbit jm i = true.
Proof.
  intros H. unfold upper_half_set. rewrite Z.ltb_lt. split.
  - intros Hpos. exists (Z.log2 (Z.shiftr jm 4) + 4). split.
    + pose proof (Z.log2_nonneg (Z.shiftr jm 4)). lia.
    + rewrite <- Z.shiftr_spec by apply Z.log2_nonneg.
      apply Z.bit_log2. assumption.
  - intros (i & Hi & Hb).
    assert (Hs : Z.testbit (Z.shiftr jm 4) (i - 4) = true).
    { rewrite Z.shiftr_spec by lia. replace (i - 4 + 4) with i by lia.
      assumption. }
    assert (Hn : 0 <= Z.shiftr jm 4) by (apply Z.shiftr_nonneg; assumption).
    destruct (Z.eq_dec (Z.shiftr jm 4) 0) as [E | E]; [| lia].
    rewrite E, Z.bits_0 in Hs. discriminate.
Qed.

(** C3. A motion event that the callback processes is reported as
    NATIVE_MOUSE_DRAGGED when a mouse-button bit of the translated modifier
    mask is set and as NATIVE_MOUSE_MOVED otherwise, and [mouse_dragged] is
    set to exactly that.  The translated mask is a bit set (not negative);
    the button bits are the bits above the low nibble, and on a mask of one
    byte they are the upper nibble, [jmodifiers & 0xF0]. *)
Theorem motion_dragged_or_moved (X : Externals) (s : system) (d : delivery) :
  capturing s -> live d = true -> event_type d = MotionNotify ->
  let jmodifiers := NativeToJEventMask X (event_mask d) in
  0 <= jmodifiers ->
  exists dragged : bool,
    returned (callback_proc X d s) = true /\
    emitted X d s =
      [NativeMouseMotionEvent
         (if dragged then NATIVE_MOUSE_DRAGGED else NATIVE_MOUSE_MOVED)
         (event_time d) jmodifiers (event_root_x d) (event_root_y d)
         (click_count (gm (after X d s)))] /\
    mouse_dragged (gm (after X d s)) = dragged /\
    (dragged = true <-> exists i, 4 <= i /\ Z.testbit jmodifiers i = true) /\
    (jmodifiers < 256 -> dragged = Spec.button_held jmodifiers).
Proof.
  intros Hc Hl Hm jmodifiers Hj.
  exists (upper_half_set jmodifiers).
  split; [apply callback_proc_returns; assumption |].
  rewrite emitted_live, after_live, handled_gm by assumption.
  rewrite switch_motion_event, switch_motion_mouse by assumption.
  split; [reflexivity |]. split; [reflexivity |]. split.
  - apply upper_half_set_bits. assumption.
  - intros Hb. apply upper_half_is_upper_nibble. lia.
Qed.

Lemma motion_dragged_or_moved_witness :
  let X := Sample.externals in
  let s := Sample.capturing in
  let held := Sample.motion Sample.Button1Mask 1500 in
  let free := Sample.motion 0 1500 in
  (capturing s /\ live held = true /\ event_type held = MotionNotify /\
   0 <= NativeToJEventMask X (event_mask held)) /\
  (exists e, emitted X held s = [e] /\ id_of e = NATIVE_MOUSE_DRAGGED) /\
  mouse_dragged (gm (after X held s)) = true /\
  (exists e, emitted X free s = [e] /\ id_of e = NATIVE_MOUSE_MOVED) /\
  mouse_dragged (gm (after X free s)) = false.
Proof.
  intros X s held free.
  assert (Hheld : 0 <= NativeToJEventMask X (event_mask held)) by evaluate.
  assert (Hfree : 0 <= NativeToJEventMask X (event_mask free)) by evaluate.
  split; [repeat split; try exact Hheld; evaluate |].
  destruct (motion_dragged_or_moved X s held sample_capturing
              eq_refl eq_refl Hheld) as (b1 & _ & E1 & D1 & _ & N1).
  destruct (motion_dragged_or_moved X s free sample_capturing
              eq_refl eq_refl Hfree) as (b2 & _ & E2 & D2 & _ & N2).
  assert (B1 : b1 = true) by (rewrite N1; evaluate).
  assert (B2 : b2 = false) by (rewrite N2; evaluate).
  rewrite B1 in E1, D1. rewrite B2 in E2, D2.
  split; [eexists; split; [exact E1 | reflexivity] |].
  split; [exact D1 |].
  split; [eexists; split; [exact E2 | reflexivity] |].
  exact D2.
Defined.

(** ** The scroll wheel *)

Lemma wheel_code_cases code :
  is_wheel_code code = true <-> code = WheelUp \/ code = WheelDown.
Proof.
  unfold is_wheel_code. rewrite orb_true_iff, !Z.eqb_eq. reflexivity.
Qed.

Lemma wheel_code_not_button code :
  is_wheel_code code = true -> is_button_code code = false.
Proof.
  rewrite wheel_code_cases. intros [H | H]; rewrite H; reflexivity.
Qed.

(** C7. A press of a scroll-wheel notch is reported as one
    NATIVE_MOUSE_WHEEL event whose rotation is -1 for [WheelUp] (up and
    away) and 1 for [WheelDown] (down and toward), in both cases with scroll
    type WHEEL_UNIT_SCROLL and scroll amount 3. *)
Theorem wheel_rotation_sign (X : Externals) (s : system) (d : delivery) :
  capturing s -> live d = true -> event_type d = ButtonPress ->
  let wheel rotation :=
    [NativeMouseWheelEvent NATIVE_MOUSE_WHEEL (event_time d)
       (NativeToJEventMask X (event_mask d))
       (event_root_x d) (event_root_y d)
       (click_count (gm (after X d s)))
       (WHEEL_UNIT_SCROLL X) 3 rotation] in
  returned (callback_proc X d s) = true /\
  (event_code d = WheelUp -> emitted X d s = wheel (-1)) /\
  (event_code d = WheelDown -> emitted X d s = wheel 1).
Proof.
  intros Hc Hl Hp wheel. subst wheel. unfold event_code.
  split; [apply callback_proc_returns; assumption |].
  rewrite emitted_live, after_live, handled_gm by assumption.
  rewrite switch_press_mouse by assumption.
  split; intros Hw;
    (rewrite switch_press_wheel;
     [rewrite Hw; reflexivity
     | assumption
     | apply wheel_code_cases; auto]).
Qed.

Lemma wheel_rotation_sign_witness :
  let X := Sample.externals in
  let s := Sample.capturing in
  (capturing s /\ live (Sample.press WheelUp 1000) = true /\
   live (Sample.press WheelDown 1000) = true) /\
  emitted X (Sample.press WheelUp 1000) s =
    [NativeMouseWheelEvent NATIVE_MOUSE_WHEEL 1000 0 10 20 1 1 3 (-1)] /\
  emitted X (Sample.press WheelDown 1000) s =
    [NativeMouseWheelEvent NATIVE_MOUSE_WHEEL 1000 0 10 20 1 1 3 1].
Proof.
  intros X s.
  split; [repeat split; evaluate |].
  split.
  - apply (wheel_rotation_sign X s (Sample.press WheelUp 1000)
             sample_capturing eq_refl eq_refl). reflexivity.
  - apply (wheel_rotation_sign X s (Sample.press WheelDown 1000)
             sample_capturing eq_refl eq_refl). reflexivity.
Defined.

Lemma switch_notch_never_button (X : Externals) t data m :
  is_wheel_code (detail data) = true ->
  forall e, In e (snd (switch_event_type X t data m)) ->
            id_of e <> NATIVE_MOUSE_PRESSED /\
            id_of e <> NATIVE_MOUSE_RELEASED /\
            id_of e <> NATIVE_MOUSE_CLICKED.
Proof.
  intros Hw e. pose proof (wheel_code_not_button _ Hw) as Hb.
  unfold switch_event_type. rewrite Hb, Hw.
  destruct (type data =? KeyPress).
  { destruct (KeySymToUnicode X _ =? 0); cbn;
      intuition (subst; cbn in *; discriminate). }
  destruct (type data =? KeyRelease).
  { cbn; intuition (subst; cbn in *; discriminate). }
  destruct (type data =? ButtonPress).
  { cbn; intuition (subst; cbn in *; discriminate). }
  destruct (type data =? ButtonRelease).
  { cbn; intuition. }
  destruct (type data =? MotionNotify).
  { destruct (upper_half_set _); cbn;
      intuition (subst; cbn in *; discriminate). }
  cbn; intuition.
Qed.

(** C8. A button event whose code is a scroll-wheel notch (4 or 5) is never
    reported as an ordinary button: the press gives a single
    NATIVE_MOUSE_WHEEL event, the release gives nothing, and no object with
    the identifier NATIVE_MOUSE_PRESSED, NATIVE_MOUSE_RELEASED or
    NATIVE_MOUSE_CLICKED is dispatched for it. *)
Theorem wheel_notch_never_button (X : Externals) (s : system) (d : delivery) :
  capturing s -> live d = true ->
  event_code d = 4 \/ event_code d = 5 ->
  returned (callback_proc X d s) = true /\
  (event_type d = ButtonPress ->
   exists rotation,
     emitted X d s =
       [NativeMouseWheelEvent NATIVE_MOUSE_WHEEL (event_time d)
          (NativeToJEventMask X (event_mask d))
          (event_root_x d) (event_root_y d)
          (click_count (gm (after X d s)))
          (WHEEL_UNIT_SCROLL X) 3 rotation]) /\
  (event_type d = ButtonRelease -> emitted X d s = []) /\
  (forall e, In e (emitted X d s) ->
             id_of e <> NATIVE_MOUSE_PRESSED /\
             id_of e <> NATIVE_MOUSE_RELEASED /\
             id_of e <> NATIVE_MOUSE_CLICKED).
Proof.
  intros Hc Hl Hcode.
  assert (Hw : is_wheel_code (detail (hook_data (hook d))) = true)
    by (apply wheel_code_cases; exact Hcode).
  split; [apply callback_proc_returns; assumption |].
  rewrite emitted_live, after_live, handled_gm by assumption.
  split; [| split].
  - intros Hp. eexists.
    rewrite switch_press_wheel, switch_press_mouse by assumption.
    reflexivity.
  - intros Hr. apply switch_release_other; [assumption |].
    apply wheel_code_not_button. assumption.
  - apply switch_notch_never_button. assumption.
Qed.

Lemma wheel_notch_never_button_witness :
  let X := Sample.externals in
  let s := Sample.capturing in
  (capturing s /\ live (Sample.release 4 1000) = true /\
   live (Sample.press 5 1000) = true) /\
  emitted X (Sample.release 4 1000) s = [] /\
  forall e, In e (emitted X (Sample.press 5 1000) s) ->
            id_of e <> NATIVE_MOUSE_PRESSED /\
            id_of e <> NATIVE_MOUSE_RELEASED /\
            id_of e <> NATIVE_MOUSE_CLICKED.
Proof.
  intros X s.
  split; [repeat split; evaluate |].
  split.
  - apply (wheel_notch_never_button X s (Sample.release 4 1000)
             sample_capturing eq_refl (or_introl eq_refl)). reflexivity.
  - apply (wheel_notch_never_button X s (Sample.press 5 1000)
             sample_capturing eq_refl (or_intror eq_refl)).
Defined.

(** C9. Every button press goes through the click counting before the
    button code is looked at.  A press of a wheel notch leaves the mouse
    globals as the counting step [track_click] leaves them, which is how
    any other press at the same time leaves them; within the multi-click
    interval it increments [click_count] and sets [click_time] to the time
    of the press; and the NATIVE_MOUSE_WHEEL event carries the resulting
    [click_count]. *)
Theorem wheel_press_counts_clicks (X : Externals) (s : system) (d : delivery) :
  capturing s -> live d = true -> event_type d = ButtonPress ->
  is_wheel_code (event_code d) = true ->
  returned (callback_proc X d s) = true /\
  gm (after X d s) = track_click X (event_time d) (gm s) /\
  (forall d',
      live d' = true -> event_type d' = ButtonPress ->
      event_time d' = event_time d ->
      gm (after X d' s) = gm (after X d s)) /\
  (mouse_ok (gm s) -> 0 <= event_time d ->
   event_time d - click_time (gm s) <= GetMultiClickTime X ->
   click_count (gm (after X d s)) = CInt.to_ushort (click_count (gm s) + 1) /\
   click_time (gm (after X d s)) = event_time d) /\
  (exists jmodifiers x y scroll_type amount rotation,
      emitted X d s =
        [NativeMouseWheelEvent NATIVE_MOUSE_WHEEL (event_time d) jmodifiers
           x y (click_count (gm (after X d s)))
           scroll_type amount rotation]).
Proof.
  intros Hc Hl Hp Hw.
  assert (Hgm : gm (after X d s) = track_click X (event_time d) (gm s)).
  { rewrite after_live, handled_gm by assumption.
    apply switch_press_mouse. assumption. }
  split; [apply callback_proc_returns; assumption |].
  split; [exact Hgm |]. split; [| split].
  - intros d' Hl' Hp' Ht. rewrite Hgm.
    rewrite after_live, handled_gm by assumption.
    rewrite switch_press_mouse by assumption. rewrite Ht. reflexivity.
  - intros [Hn Ht] Hd Hle. rewrite Hgm.
    assert (Hd' : 0 <= event_time d <= CInt.LONG_MAX)
      by (pose proof (event_time_range d); lia).
    rewrite track_click_count, track_click_time by assumption.
    apply Z.leb_le in Hle. rewrite Hle. split; reflexivity.
  - rewrite emitted_live by assumption. rewrite Hgm.
    rewrite switch_press_wheel by assumption.
    repeat eexists.
Qed.

Lemma wheel_press_counts_clicks_witness :
  let X := Sample.externals in
  let s := after X (Sample.press 1 1000) Sample.capturing in
  let notch := Sample.press 5 1100 in
  (capturing s /\ live notch = true /\ event_type notch = ButtonPress /\
   is_wheel_code (event_code notch) = true) /\
  click_count (gm (after X notch s)) = 2 /\
  click_time (gm (after X notch s)) = 1100 /\
  gm (after X (Sample.press 1 1100) s) = gm (after X notch s).
Proof.
  intros X s notch.
  assert (Hc : capturing s) by (split; [discriminate | reflexivity]).
  split; [split; [exact Hc | repeat split] |].
  destruct (wheel_press_counts_clicks X s notch Hc eq_refl eq_refl eq_refl)
    as (_ & _ & Hsame & Hcount & _).
  destruct Hcount as [Hn Ht].
  - unfold mouse_ok. split; evaluate.
  - evaluate.
  - evaluate.
  - split; [exact Hn |]. split; [exact Ht |].
    apply Hsame; reflexivity.
Defined.

(** ** The dragging flag *)

Section DraggingFlag.

Variable X : Externals.

Lemma after_keeps_dragged d s :
  is_motion d = false ->
  mouse_dragged (gm (after X d s)) = mouse_dragged (gm s).
Proof.
  intros Hm. unfold is_motion, event_data, event_type in Hm.
  unfold after, callback_proc.
  destruct (hook_category (hook d)); cbn in Hm;
    unfold bind, gets, modify, ret, pthread_mutex_lock,
      pthread_mutex_trylock, pthread_mutex_unlock, locked;
    try (destruct (running_locked (gh s)); reflexivity);
    try reflexivity;
    (destruct (disp_ctrl (gh s)); [| reflexivity]);
    (destruct (jni_ok d); [| reflexivity]);
    (destruct (running_locked (gh s)); [| reflexivity]);
    cbn;
    pose proof (switch_keeps_dragged X (event_time_of (now d))
                  (hook_data (hook d)) (gm s)) as K;
    (destruct (switch_event_type X (event_time_of (now d))
                 (hook_data (hook d)) (gm s)) as [m' objs]);
    cbn in *; apply K; intros E; rewrite E in Hm; discriminate.
Qed.

Lemma after_all_cons d ds s :
  after_all X (d :: ds) s =
  match callback_proc X d s with
  | Returns _ s1 => after_all X ds s1
  | Blocks s1 => s1
  end.
Proof.
  unfold after_all. cbn. unfold bind.
  destruct (callback_proc X d s); reflexivity.
Qed.

Lemma after_all_keeps_dragged ds : forall s,
  forallb (fun d => negb (is_motion d)) ds = true ->
  mouse_dragged (gm (after_all X ds s)) = mouse_dragged (gm s).
Proof.
  induction ds as [| d ds IH]; intros s H; cbn in H.
  - reflexivity.
  - apply andb_true_iff in H as [Hd Hds].
    apply negb_true_iff in Hd.
    pose proof (after_keeps_dragged d s Hd) as K. unfold after in K.
    rewrite after_all_cons.
    destruct (callback_proc X d s) as [[] s1 | s1]; cbn in K.
    + rewrite IH by assumption. exact K.
    + exact K.
Qed.

Lemma after_all_app pre post s :
  capturing s -> forallb live pre = true ->
  after_all X (pre ++ post) s = after_all X post (after_all X pre s).
Proof.
  revert s. induction pre as [| d pre IH]; intros s Hc Hl; cbn in Hl.
  - reflexivity.
  - apply andb_true_iff in Hl as [Hd Hpre].
    cbn [app]. rewrite !after_all_cons.
    rewrite callback_proc_live by assumption.
    apply IH; auto using handled_capturing.
Qed.

(** The flag after a stream is the classification of its last motion. *)
Lemma dragged_after_last_motion pre m post s :
  capturing s -> forallb live (pre ++ m :: post) = true ->
  event_type m = MotionNotify ->
  forallb (fun d => negb (is_motion d)) post = true ->
  mouse_dragged (gm (after_all X (pre ++ m :: post) s)) =
  upper_half_set (NativeToJEventMask X (event_mask m)).
Proof.
  intros Hc Hl Hm Hpost.
  rewrite forallb_app in Hl. apply andb_true_iff in Hl as [Hpre Hl].
  cbn in Hl. apply andb_true_iff in Hl as [Hlm Hlpost].
  rewrite after_all_app by assumption.
  rewrite after_all_cons.
  rewrite callback_proc_live
    by (try apply after_all_capturing; assumption).
  rewrite after_all_keeps_dragged by assumption.
  rewrite handled_gm, switch_motion_mouse by assumption.
  reflexivity.
Qed.

Lemma release_emits ds r s :
  capturing s -> forallb live ds = true -> live r = true ->
  event_type r = ButtonRelease -> is_button_code (event_code r) = true ->
  let s' := after_all X ds s in
  let released :=
    NativeMouseButtonEvent NATIVE_MOUSE_RELEASED (event_time r)
      (NativeToJEventMask X (event_mask r))
      (event_root_x r) (event_root_y r) (click_count (gm s'))
      (NativeToJButton X (event_code r)) in
  let clicked :=
    NativeMouseButtonEvent NATIVE_MOUSE_CLICKED (event_time r)
      (NativeToJEventMask X (event_mask r))
      (event_root_x r) (event_root_y r) (click_count (gm s'))
      (NativeToJButton X (event_code r)) in
  emitted X r s' =
  released :: (if mouse_dragged (gm s') then [] else [clicked]).
Proof.
  intros Hc Hl Hr Ht Hb s' released clicked.
  subst released clicked.
  rewrite emitted_live by (try apply after_all_capturing; assumption).
  apply switch_release_button; assumption.
Qed.

End DraggingFlag.

(** C10. [mouse_dragged] is assigned only in the motion case.  A call of
    the callback that is not for a motion event leaves it as it was, so it
    is invariant along every sequence without motion events; after a
    sequence of processed events it is the classification of the last
    motion event of the sequence, whatever presses and releases came after
    that motion, and a release of an ordinary button then reports
    NATIVE_MOUSE_CLICKED exactly when that motion was not a drag. *)
Theorem dragging_flag_follows_last_motion (X : Externals) :
  (forall d s,
      is_motion d = false ->
      mouse_dragged (gm (after X d s)) = mouse_dragged (gm s)) /\
  (forall ds s,
      forallb (fun d => negb (is_motion d)) ds = true ->
      mouse_dragged (gm (after_all X ds s)) = mouse_dragged (gm s)) /\
  (forall pre m post r s,
      capturing s ->
      forallb live (pre ++ m :: post) = true -> live r = true ->
      event_type m = MotionNotify ->
      forallb (fun d => negb (is_motion d)) post = true ->
      event_type r = ButtonRelease -> is_button_code (event_code r) = true ->
      let dragged := upper_half_set (NativeToJEventMask X (event_mask m)) in
      let s' := after_all X (pre ++ m :: post) s in
      returned (callbacks X (pre ++ m :: post) s) = true /\
      mouse_dragged (gm s') = dragged /\
      existsb (has_id NATIVE_MOUSE_RELEASED) (emitted X r s') = true /\
      existsb (has_id NATIVE_MOUSE_CLICKED) (emitted X r s') = negb dragged).
Proof.
  split; [| split].
  - apply after_keeps_dragged.
  - intros ds s. apply after_all_keeps_dragged.
  - intros pre m post r s Hc Hl Hr Hm Hpost Ht Hb dragged s'.
    assert (Hflag : mouse_dragged (gm s') = dragged)
      by (apply dragged_after_last_motion; assumption).
    split; [apply callbacks_return; assumption |].
    split; [exact Hflag |].
    subst s'. rewrite release_emits by assumption.
    rewrite Hflag. destruct dragged; split; reflexivity.
Qed.

Lemma dragging_flag_follows_last_motion_witness :
  let X := Sample.externals in
  let s := Sample.capturing in
  let drag := Sample.motion Sample.Button1Mask 1050 in
  let stream :=
    [Sample.press 1 1000] ++
    drag :: [Sample.release 1 1100; Sample.press 1 3000] in
  let r := Sample.release 1 3100 in
  (capturing s /\ forallb live stream = true /\ live r = true) /\
  mouse_dragged (gm (after_all X stream s)) = true /\
  existsb (has_id NATIVE_MOUSE_CLICKED)
    (emitted X r (after_all X stream s)) = false.
Proof.
  intros X s drag stream r.
  split; [repeat split; evaluate |].
  destruct (dragging_flag_follows_last_motion X) as (_ & _ & H).
  destruct (H [Sample.press 1 1000] drag
              [Sample.release 1 1100; Sample.press 1 3000] r s
              sample_capturing eq_refl eq_refl eq_refl eq_refl
              eq_refl eq_refl) as (_ & Hflag & _ & Hclick).
  split; [exact Hflag | exact Hclick].
Defined.

(** C2, the code at the failing input.  After a drag, the release that ends
    it, and a new press, with no motion in between, the release of an
    ordinary button dispatches NATIVE_MOUSE_RELEASED alone: the flag still
    holds the drag that came before the press, and no NATIVE_MOUSE_CLICKED
    follows although nothing was dragged since that press. *)
Theorem release_after_earlier_drag_not_clicked
    (X : Externals) (s : system) (drag r1 p2 r2 : delivery) :
  capturing s -> forallb live [drag; r1; p2; r2] = true ->
  event_type drag = MotionNotify ->
  upper_half_set (NativeToJEventMask X (event_mask drag)) = true ->
  event_type r1 = ButtonRelease ->
  event_type p2 = ButtonPress ->
  event_type r2 = ButtonRelease -> is_button_code (event_code r2) = true ->
  let s' := after_all X [drag; r1; p2] s in
  returned (callbacks X [drag; r1; p2; r2] s) = true /\
  forallb (fun d => negb (is_motion d)) [p2] = true /\
  emitted X r2 s' =
    [NativeMouseButtonEvent NATIVE_MOUSE_RELEASED (event_time r2)
       (NativeToJEventMask X (event_mask r2))
       (event_root_x r2) (event_root_y r2) (click_count (gm s'))
       (NativeToJButton X (event_code r2))].
Proof.
  intros Hc Hl Hm Hdrag Hr1 Hp2 Hr2 Hb s'.
  split; [apply callbacks_return; assumption |].
  cbn in Hl. rewrite andb_true_r in Hl.
  apply andb_true_iff in Hl as [L1 Hl].
  apply andb_true_iff in Hl as [L2 Hl].
  apply andb_true_iff in Hl as [L3 L4].
  assert (N1 : is_motion r1 = false).
  { unfold is_motion. rewrite Hr1. apply andb_false_r. }
  assert (N2 : is_motion p2 = false).
  { unfold is_motion. rewrite Hp2. apply andb_false_r. }
  split; [cbn; rewrite N2; reflexivity |].
  assert (Hlive : forallb live [drag; r1; p2] = true)
    by (cbn; rewrite L1, L2, L3; reflexivity).
  assert (Hflag : mouse_dragged (gm s') = true).
  { subst s'. rewrite <- Hdrag.
    apply (dragged_after_last_motion X [] drag [r1; p2] s); try assumption.
    cbn. rewrite N1, N2. reflexivity. }
  subst s'. rewrite release_emits by assumption.
  rewrite Hflag. reflexivity.
Qed.

Lemma release_after_earlier_drag_not_clicked_witness :
  let X := Sample.externals in
  let s := after X (Sample.press 1 1000) Sample.capturing in
  let drag := Sample.motion Sample.Button1Mask 1050 in
  let r1 := Sample.release 1 1100 in
  let p2 := Sample.press 1 3000 in
  let r2 := Sample.release 1 3100 in
  capturing s /\
  sink (after_all X [drag; r1; p2; r2] s) =
    [NativeMouseButtonEvent NATIVE_MOUSE_PRESSED 1000 0 10 20 1 1;
     NativeMouseMotionEvent NATIVE_MOUSE_DRAGGED 1050 16 10 20 1;
     NativeMouseButtonEvent NATIVE_MOUSE_RELEASED 1100 0 10 20 1 1;
     NativeMouseButtonEvent NATIVE_MOUSE_PRESSED 3000 0 10 20 1 1;
     NativeMouseButtonEvent NATIVE_MOUSE_RELEASED 3100 0 10 20 1 1] /\
  emitted X r2 (after_all X [drag; r1; p2] s) =
    [NativeMouseButtonEvent NATIVE_MOUSE_RELEASED 3100 0 10 20 1 1].
Proof.
  intros X s drag r1 p2 r2.
  assert (Hc : capturing s) by (split; [discriminate | reflexivity]).
  split; [exact Hc |]. split; [reflexivity |].
  apply (release_after_earlier_drag_not_clicked X s drag r1 p2 r2 Hc
           eq_refl eq_refl eq_refl eq_refl eq_refl eq_refl eq_refl).
Defined.

(** ** The life cycle *)

Lemma extends_refl s : extends s s.
Proof. exists []. symmetry. apply app_nil_r. Qed.

Lemma extends_trans s1 s2 s3 : extends s1 s2 -> extends s2 s3 -> extends s1 s3.
Proof.
  intros [l1 H1] [l2 H2]. exists (l1 ++ l2).
  rewrite H2, H1, app_assoc. reflexivity.
Qed.

Lemma extends_In x s s' : extends s s' -> In x (calls s) -> In x (calls s').
Proof. intros [l H] Hin. rewrite H. apply in_or_app. left. assumption. Qed.

Create HintDb mono discriminated.

Lemma monotone_ret {A : Type} (a : A) : monotone (ret a).
Proof. intros s. apply extends_refl. Qed.

Lemma monotone_bind {A B : Type} (c : M A) (k : A -> M B) :
  monotone c -> (forall a, monotone (k a)) -> monotone (bind c k).
Proof.
  intros Hc Hk s. unfold bind. specialize (Hc s).
  destruct (c s) as [a s1 | s1]; cbn in *.
  - eapply extends_trans; [exact Hc | apply Hk].
  - exact Hc.
Qed.

Lemma monotone_modify (f : system -> system) :
  (forall s, calls (f s) = calls s) -> monotone (modify f).
Proof.
  intros H s. cbn. exists []. rewrite H. symmetry. apply app_nil_r.
Qed.

Lemma monotone_gets {A : Type} (f : system -> A) : monotone (gets f).
Proof. intros s. apply extends_refl. Qed.

Lemma monotone_blocks {A : Type} : monotone (fun s => @Blocks A s).
Proof. intros s. apply extends_refl. Qed.

Lemma monotone_log t c : monotone (log t c).
Proof. intros s. cbn. exists [(t, c)]. reflexivity. Qed.

Lemma monotone_lock mx : monotone (pthread_mutex_lock mx).
Proof.
  intros s. unfold pthread_mutex_lock.
  destruct (locked mx s); cbn; exists []; destruct mx; cbn;
    symmetry; apply app_nil_r.
Qed.

Lemma monotone_trylock mx : monotone (pthread_mutex_trylock mx).
Proof.
  intros s. unfold pthread_mutex_trylock.
  destruct (locked mx s); cbn; exists []; destruct mx; cbn;
    symmetry; apply app_nil_r.
Qed.

Lemma monotone_unlock mx : monotone (pthread_mutex_unlock mx).
Proof.
  intros s. cbn. exists []. destruct mx; cbn; symmetry; apply app_nil_r.
Qed.

Lemma monotone_update_resources f : monotone (update_resources f).
Proof. apply monotone_modify. reflexivity. Qed.

Lemma monotone_update_handles f : monotone (update_handles f).
Proof. apply monotone_modify. reflexivity. Qed.

#[export] Hint Resolve monotone_ret monotone_gets monotone_log monotone_lock
  monotone_trylock monotone_unlock monotone_update_resources
  monotone_update_handles monotone_blocks : mono.

(** Monotonicity of a computation built from binds, matches and the calls
    above. *)
Ltac mono :=
  repeat first
    [ match goal with |- forall _, _ => intro end
    | solve [auto with mono]
    | apply monotone_bind
    | apply monotone_modify; reflexivity
    | match goal with
      | |- monotone (match ?x with _ => _ end) => destruct x
      | |- monotone (if ?b then _ else _) => destruct b
      | |- monotone (let (_, _) := ?x in _) => destruct x
      end ].

Section LifeCycle.

Variable X : Externals.

Lemma monotone_callback_proc d : monotone (callback_proc X d).
Proof. unfold callback_proc. mono. Qed.

Lemma monotone_callbacks ds : monotone (callbacks X ds).
Proof.
  induction ds as [| d ds IH]; cbn.
  - apply monotone_ret.
  - apply monotone_bind; [apply monotone_callback_proc | intros; exact IH].
Qed.

#[local] Hint Resolve monotone_callbacks : mono.

Lemma monotone_enable t c o : monotone (XRecordEnableContext X t c o).
Proof. unfold XRecordEnableContext. mono. Qed.

#[local] Hint Resolve monotone_enable : mono.

Lemma monotone_is_running : monotone (is_hook_thread_running).
Proof. unfold is_hook_thread_running. mono. Qed.

#[local] Hint Resolve monotone_is_running : mono.

Lemma monotone_thread_proc tid o : monotone (thread_proc X tid o).
Proof. unfold thread_proc, pthread_exit. mono. Qed.

#[local] Hint Resolve monotone_thread_proc : mono.

Lemma monotone_run_capture tid p : monotone (run_capture X tid p).
Proof. unfold run_capture. mono. Qed.

#[local] Hint Resolve monotone_run_capture : mono.

Lemma monotone_pthread_create t r : monotone (pthread_create t r).
Proof. unfold pthread_create. mono. Qed.

#[local] Hint Resolve monotone_pthread_create : mono.

Lemma monotone_pthread_join t tid : monotone (pthread_join t tid).
Proof. unfold pthread_join. mono. Qed.

#[local] Hint Resolve monotone_pthread_join : mono.

Lemma monotone_handshake p tid : monotone (handshake X p tid).
Proof. unfold handshake. mono. Qed.

#[local] Hint Resolve monotone_handshake : mono.

Lemma monotone_LoadInputHelper t : monotone (LoadInputHelper t).
Proof. unfold LoadInputHelper. mono. Qed.

#[local] Hint Resolve monotone_LoadInputHelper : mono.

(** What is in the log of the first part of a computation is in the log
    at its end. *)
Lemma logged_bind_l {A B : Type} x (c : M A) (k : A -> M B) s :
  In x (calls (final (c s))) -> (forall a, monotone (k a)) ->
  In x (calls (final (bind c k s))).
Proof.
  intros Hin Hk. unfold bind.
  destruct (c s) as [a s1 | s1]; cbn in *.
  - eapply extends_In; [apply Hk | exact Hin].
  - exact Hin.
Qed.

Lemma logged_bind_r {A B : Type} x (c : M A) (k : A -> M B) s a s1 :
  c s = Returns a s1 -> In x (calls (final (k a s1))) ->
  In x (calls (final (bind c k s))).
Proof. intros Hc Hin. unfold bind. rewrite Hc. exact Hin. Qed.

End LifeCycle.

#[export] Hint Resolve monotone_callback_proc monotone_callbacks
  monotone_enable monotone_is_running monotone_thread_proc
  monotone_run_capture monotone_pthread_create monotone_pthread_join
  monotone_handshake monotone_LoadInputHelper : mono.

Section LogPrefix.

Variable X : Externals.

Lemma extends_bind_l {A B : Type} s0 (c : M A) (k : A -> M B) s :
  extends s0 (final (c s)) -> (forall a, monotone (k a)) ->
  extends s0 (final (bind c k s)).
Proof.
  intros Hc Hk. unfold bind.
  destruct (c s) as [a s1 | s1]; cbn in *.
  - eapply extends_trans; [exact Hc | apply Hk].
  - exact Hc.
Qed.

Lemma extends_bind_r {A B : Type} s0 (c : M A) (k : A -> M B) s a s1 :
  c s = Returns a s1 -> extends s0 (final (k a s1)) ->
  extends s0 (final (bind c k s)).
Proof. intros Hc Hk. unfold bind. rewrite Hc. exact Hk. Qed.

(** One call that returns, evaluated. *)
Ltac step_r := eapply extends_bind_r; [cbn; reflexivity |].

Lemma start_log_prefix p s dc dd :
  idle s ->
  open_ctrl p = Some dc -> open_data p = Some dd ->
  query_version p = true -> alloc_range p = true ->
  exists l,
    calls (final (start_native_thread X p s)) =
    calls s ++ setup_calls dc dd (create_context p) ++ l.
Proof.
  intros [Hr Hc] Hoc Hod Hq Ha.
  destruct p as [oc od q a c en sp cap]. cbn in *. subst.
  destruct s as [m [dctl ctx rl cl tid] r sk lg]. cbn in *. subst.
  set (s0 := with_calls (lg ++ setup_calls dc dd c)
               {| gm := m; gh := handles_init; res := r;
                  sink := sk; calls := lg |}).
  assert (E : extends s0
                (final (start_native_thread X
                          {| open_ctrl := Some dc; open_data := Some dd;
                             query_version := true; alloc_range := true;
                             create_context := c; enable := en;
                             spawn := sp; capture := cap |}
                          {| gm := m;
                             gh := {| disp_ctrl := dctl; context := ctx;
                                      running_locked := false;
                                      control_locked := false;
                                      hook_thread_id := tid |};
                             res := r; sink := sk; calls := lg |}))).
  { unfold start_native_thread.
    step_r. step_r.
    apply extends_bind_l; [| mono].
    cbn [negb].
    step_r.
    apply extends_bind_l; [| mono].
    unfold setup.
    step_r. step_r. step_r. step_r.
    cbn [query_version alloc_range].
    step_r.
    cbn [create_context enable].
    unfold XRecordCreateContext.
    destruct (c =? 0);
      (step_r; step_r; step_r; step_r;
       unfold XRecordEnableContext;
       apply extends_bind_l; [| mono];
       apply extends_bind_l; [| mono];
       cbn; exists []; unfold setup_calls;
       rewrite ?app_nil_r, <- ?app_assoc; reflexivity). }
  destruct E as [l E]. exists l. rewrite E. subst s0. cbn.
  rewrite <- app_assoc. reflexivity.
Qed.

End LogPrefix.

(** C4, the code at the failing input.  When the displays open, the record
    extension answers and the range is allocated, [start_native_thread]
    itself calls the blocking [XRecordEnableContext], on the thread of its
    caller and before it creates any thread: the log of the call starts
    with the setup calls of the caller, the enable call among them. *)
Theorem start_enables_context_on_caller
    (X : Externals) (p : platform) (s : system) (dc dd : Display) :
  idle s ->
  open_ctrl p = Some dc -> open_data p = Some dd ->
  query_version p = true -> alloc_range p = true ->
  let s' := final (start_native_thread X p s) in
  In (Caller, CallXRecordEnableContext (create_context p)) (calls s') /\
  exists l, calls s' = calls s ++ setup_calls dc dd (create_context p) ++ l.
Proof.
  intros Hi Hoc Hod Hq Ha s'.
  destruct (start_log_prefix X p s dc dd Hi Hoc Hod Hq Ha) as [l E].
  split; [| exists l; exact E].
  subst s'. rewrite E. apply in_or_app. right.
  apply in_or_app. left. unfold setup_calls. cbn. tauto.
Qed.

Lemma start_enables_context_on_caller_witness :
  idle system_init /\
  calls (final (start_native_thread Sample.externals Faults.none system_init)) =
    [(Caller, CallXOpenDisplay); (Caller, CallXOpenDisplay);
     (Caller, CallXRecordQueryVersion 1); (Caller, CallXRecordAllocRange);
     (Caller, CallXRecordCreateContext 2); (Caller, CallXFree);
     (Caller, CallXRecordEnableContext 7);
     (Caller, CallLoadInputHelper); (Caller, CallPthreadCreate);
     (Capture, CallXRecordEnableContext 7)] /\
  In (Caller, CallXRecordEnableContext 7)
     (calls (final (start_native_thread Sample.externals Faults.none
                      system_init))).
Proof.
  assert (Hi : idle system_init) by (split; reflexivity).
  split; [exact Hi |]. split; [reflexivity |].
  apply (start_enables_context_on_caller Sample.externals Faults.none
           system_init 1 2 Hi eq_refl eq_refl eq_refl eq_refl).
Defined.

(** C5, the code at the failing input.  When a display does not open, the
    record extension is missing or no range is allocated,
    [start_native_thread] returns RETURN_FAILURE with both mutexes free, no
    context and no thread created; but every display that was opened is
    still open, and [disp_ctrl] still points to the first. *)
Theorem failed_start_leaves_displays_open
    (X : Externals) (p : platform) (s : system) :
  idle s ->
  open_ctrl p = None \/ open_data p = None \/
    query_version p = false \/ alloc_range p = false ->
  exists s',
    start_native_thread X p s = Returns RETURN_FAILURE s' /\
    idle s' /\
    result (is_hook_thread_running s') = Some false /\
    threads (res s') = threads (res s) /\
    contexts (res s') = contexts (res s) /\
    context (gh s') = 0 /\
    ranges (res s') = ranges (res s) /\
    connections (res s') = connections (res s) ++ opened p /\
    disp_ctrl (gh s') = open_ctrl p /\
    (forall t c, In (t, c) (calls s') ->
                 In (t, c) (calls s) \/
                 forall d, c <> CallXCloseDisplay d).
Proof.
  intros [Hr Hc] Hfail.
  destruct p as [oc od q a c en sp cap]. cbn in Hfail.
  destruct s as [m [dctl ctx rl cl tid] r sk lg]. cbn in Hr, Hc. subst.
  destruct r as [conn ctxs rg ih th ex].
  unfold opened. cbn [open_ctrl open_data].
  assert (Hin : forall (l : list (thread * call)) t c',
             In (t, c') (lg ++ l) ->
             (forall x, In x l -> forall d, snd x <> CallXCloseDisplay d) ->
             In (t, c') lg \/ forall d, c' <> CallXCloseDisplay d).
  { intros l t c' H Hl. apply in_app_or in H as [H | H]; [left; exact H |].
    right. exact (Hl _ H). }
  destruct oc as [dc |]; destruct od as [dd |];
    [ destruct q; [ destruct a; [ exfalso; intuition discriminate | ] | ] | | | ];
    (eexists; split; [cbn; reflexivity |];
     unfold idle; cbn;
     repeat match goal with |- _ /\ _ => split end;
     try reflexivity;
     try (rewrite <- ?app_assoc; cbn; rewrite ?app_nil_r; reflexivity);
     try lia;
     intros t c' H; rewrite <- ?app_assoc in H; cbn in H;
     (eapply Hin; [exact H |]);
     intros x Hx d; cbn in Hx;
     repeat (destruct Hx as [Hx | Hx]; [subst x; discriminate |]);
     contradiction).
Qed.

Lemma failed_start_leaves_displays_open_witness :
  idle system_init /\ query_version Faults.no_extension = false /\
  exists s',
    start_native_thread Sample.externals Faults.no_extension system_init =
      Returns RETURN_FAILURE s' /\
    connections (res s') = [1; 2] /\
    disp_ctrl (gh s') = Some 1.
Proof.
  assert (Hi : idle system_init) by (split; reflexivity).
  split; [exact Hi |]. split; [reflexivity |].
  destruct (failed_start_leaves_displays_open Sample.externals
              Faults.no_extension system_init Hi
              (or_intror (or_intror (or_introl eq_refl))))
    as (s' & E & _ & _ & _ & _ & _ & _ & Hconn & Hctrl & _).
  exists s'. split; [exact E |]. split; [exact Hconn | exact Hctrl].
Defined.

(** C6 as amended.  A call of [start_native_thread] while the hook runs
    changes nothing: it makes no platform call, opens no display, creates
    no context and no thread, and leaves every global as it was.  Its
    status is RETURN_FAILURE. *)
Theorem start_while_running_changes_nothing
    (X : Externals) (p : platform) (s : system) :
  running s ->
  start_native_thread X p s = Returns RETURN_FAILURE s.
Proof.
  intros [Hr Hc].
  destruct s as [m [dctl ctx rl cl tid] r sk lg]. cbn in Hr, Hc. subst.
  reflexivity.
Qed.

Lemma start_while_running_changes_nothing_witness :
  running Sample.capturing /\
  start_native_thread Sample.externals Faults.none Sample.capturing =
    Returns RETURN_FAILURE Sample.capturing /\
  threads (res Sample.capturing) = [3].
Proof.
  assert (Hr : running Sample.capturing) by (split; reflexivity).
  split; [exact Hr |]. split; [| reflexivity].
  apply (start_while_running_changes_nothing Sample.externals Faults.none
           Sample.capturing Hr).
Defined.

(** C6 as stated fails: the second start does not report anything other
    than an error.  Its status is RETURN_FAILURE, the status of a start
    that failed because the record extension is missing, and not
    RETURN_SUCCESS. *)
Lemma start_while_running_reports_failure :
  let second :=
    start_native_thread Sample.externals Faults.none Sample.capturing in
  let failed :=
    start_native_thread Sample.externals Faults.no_extension system_init in
  ~ (result second <> Some RETURN_FAILURE) /\
  result second = result failed.
Proof.
  split; [intros H; apply H; reflexivity | reflexivity].
Qed.

(** * Further properties of the callback *)

Section CallbackMore.

Variable X : Externals.

Lemma switch_key_press t data m :
  type data = KeyPress ->
  switch_event_type X t data m =
  (m,
   NativeKeyEvent NATIVE_KEY_PRESSED t (NativeToJEventMask X (state data))
     (detail data)
     (keycode (NativeToJKey X (KeyCodeToKeySym X (detail data) (state data))))
     (CHAR_UNDEFINED X)
     (location (NativeToJKey X (KeyCodeToKeySym X (detail data) (state data))))
   :: (if KeySymToUnicode X (KeyCodeToKeySym X (detail data) (state data)) =? 0
       then []
       else [NativeKeyEvent NATIVE_KEY_TYPED t
               (NativeToJEventMask X (state data)) (detail data)
               (VK_UNDEFINED X)
               (CInt.to_jchar
                  (KeySymToUnicode X
                     (KeyCodeToKeySym X (detail data) (state data))))
               (location
                  (NativeToJKey X
                     (KeyCodeToKeySym X (detail data) (state data))))])).
Proof. intros H. unfold switch_event_type. rewrite H. reflexivity. Qed.

Lemma switch_key_release t data m :
  type data = KeyRelease ->
  switch_event_type X t data m =
  (m,
   [NativeKeyEvent NATIVE_KEY_RELEASED t (NativeToJEventMask X (state data))
      (detail data)
      (keycode (NativeToJKey X (KeyCodeToKeySym X (detail data) (state data))))
      (CHAR_UNDEFINED X)
      (location
         (NativeToJKey X (KeyCodeToKeySym X (detail data) (state data))))]).
Proof. intros H. unfold switch_event_type. rewrite H. reflexivity. Qed.

Lemma switch_unhandled t data m :
  type data <> KeyPress -> type data <> KeyRelease ->
  type data <> ButtonPress -> type data <> ButtonRelease ->
  type data <> MotionNotify ->
  switch_event_type X t data m = (m, []).
Proof.
  intros H1 H2 H3 H4 H5. unfold switch_event_type.
  apply Z.eqb_neq in H1, H2, H3, H4, H5.
  rewrite H1, H2, H3, H4, H5. reflexivity.
Qed.

Lemma switch_press_unreported t data m :
  type data = ButtonPress -> is_unreported_code (detail data) = true ->
  switch_event_type X t data m = (track_click X t m, []).
Proof.
  intros H Hu. unfold is_unreported_code in Hu.
  apply andb_true_iff in Hu as [Hb Hw]. apply negb_true_iff in Hb, Hw.
  unfold switch_event_type. rewrite H. cbn. rewrite Hb, Hw. reflexivity.
Qed.

(** The objects of one pass through the switch: never more than two, all
    stamped with the time and the translated mask of the event. *)
Lemma switch_objects t data m :
  let objs := snd (switch_event_type X t data m) in
  (length objs <= 2)%nat /\
  forall e, In e objs ->
            when_of e = t /\
            modifiers_of e = NativeToJEventMask X (state data).
Proof.
  unfold switch_event_type.
  destruct (type data =? KeyPress).
  { destruct (KeySymToUnicode X _ =? 0); cbn; split; try lia;
      intros e He; intuition (subst; auto). }
  destruct (type data =? KeyRelease).
  { cbn; split; try lia; intros e He; intuition (subst; auto). }
  destruct (type data =? ButtonPress).
  { destruct (is_button_code (detail data));
      [| destruct (is_wheel_code (detail data))];
      cbn; split; try lia; intros e He; intuition (subst; auto). }
  destruct (type data =? ButtonRelease).
  { destruct (is_button_code (detail data));
      [destruct (mouse_dragged m) |];
      cbn; split; try lia; intros e He; intuition (subst; auto). }
  destruct (type data =? MotionNotify).
  { cbn; split; try lia; intros e He; intuition (subst; auto). }
  cbn; split; try lia; intros e He; contradiction.
Qed.

(** One call of the callback either leaves the mouse globals and the sink
    as they are, or goes through the switch. *)
Lemma after_cases d s :
  (gm (after X d s) = gm s /\ sink (after X d s) = sink s) \/
  (event_data d = true /\ after X d s = handled X d s).
Proof.
  unfold after, callback_proc, handled, event_data, event_time.
  destruct (hook_category (hook d));
    unfold bind, gets, modify, ret, pthread_mutex_lock,
      pthread_mutex_trylock, pthread_mutex_unlock, locked;
    try (left; destruct (running_locked (gh s)); split; reflexivity);
    try (left; split; reflexivity);
    (destruct (disp_ctrl (gh s)); [| left; split; reflexivity]);
    (destruct (jni_ok d); [| left; split; reflexivity]);
    (destruct (running_locked (gh s)); [| left; split; reflexivity]);
    right; split; [reflexivity | | reflexivity |]; cbn;
    destruct (switch_event_type X (event_time_of (now d))
                (hook_data (hook d)) (gm s)); reflexivity.
Qed.

Lemma emitted_handled d s :
  after X d s = handled X d s ->
  emitted X d s =
  snd (switch_event_type X (event_time d) (hook_data (hook d)) (gm s)).
Proof.
  intros H. unfold emitted. rewrite H, handled_sink.
  apply skipn_length_app.
Qed.

Lemma emitted_untouched d s :
  sink (after X d s) = sink s -> emitted X d s = [].
Proof.
  intros H. unfold emitted. rewrite H. apply skipn_all.
Qed.

(** What a call of the callback never touches. *)
Lemma after_frame d s :
  res (after X d s) = res s /\ calls (after X d s) = calls s /\
  disp_ctrl (gh (after X d s)) = disp_ctrl (gh s) /\
  context (gh (after X d s)) = context (gh s) /\
  hook_thread_id (gh (after X d s)) = hook_thread_id (gh s) /\
  (event_data d = true -> gh (after X d s) = gh s).
Proof.
  unfold after, callback_proc, event_data.
  destruct s as [m [dctl ctx rl cl tid] r sk lg].
  destruct (hook_category (hook d));
    unfold bind, gets, modify, ret, pthread_mutex_lock,
      pthread_mutex_trylock, pthread_mutex_unlock, locked; cbn;
    try (destruct rl; cbn; repeat split; (reflexivity || discriminate));
    (destruct dctl; [| cbn; repeat split; reflexivity]);
    (destruct (jni_ok d); [| cbn; repeat split; reflexivity]);
    (destruct rl; [| cbn; repeat split; reflexivity]);
    cbn;
    destruct (switch_event_type X (event_time_of (now d))
                (hook_data (hook d)) m);
    cbn; repeat split; reflexivity.
Qed.

Lemma after_all_frame ds : forall s,
  res (after_all X ds s) = res s /\ calls (after_all X ds s) = calls s /\
  disp_ctrl (gh (after_all X ds s)) = disp_ctrl (gh s) /\
  context (gh (after_all X ds s)) = context (gh s) /\
  hook_thread_id (gh (after_all X ds s)) = hook_thread_id (gh s).
Proof.
  induction ds as [| d ds IH]; intros s.
  - repeat split; reflexivity.
  - rewrite after_all_cons.
    pose proof (after_frame d s) as (F1 & F2 & F3 & F4 & F5 & _).
    unfold after in *.
    destruct (callback_proc X d s) as [[] s1 | s1]; cbn in *.
    + destruct (IH s1) as (I1 & I2 & I3 & I4 & I5).
      repeat split; congruence.
    + repeat split; assumption.
Qed.

End CallbackMore.

(** X1. A key press that the callback processes dispatches
    NATIVE_KEY_PRESSED first and, when [KeySymToUnicode] gives a non-zero
    character, NATIVE_KEY_TYPED after it, with that character cut to the 16
    bits of a [jchar]; a key without character gives the pressed event
    alone.  The mouse globals are left as they were. *)
Theorem key_press_pressed_then_typed (X : Externals) (s : system) (d : delivery) :
  capturing s -> live d = true -> event_type d = KeyPress ->
  let keysym := KeyCodeToKeySym X (event_code d) (event_mask d) in
  let jkey := NativeToJKey X keysym in
  let jmodifiers := NativeToJEventMask X (event_mask d) in
  let keytxt := KeySymToUnicode X keysym in
  let pressed :=
    NativeKeyEvent NATIVE_KEY_PRESSED (event_time d) jmodifiers
      (event_code d) (keycode jkey) (CHAR_UNDEFINED X) (location jkey) in
  let typed :=
    NativeKeyEvent NATIVE_KEY_TYPED (event_time d) jmodifiers
      (event_code d) (VK_UNDEFINED X) (keytxt mod 65536) (location jkey) in
  returned (callback_proc X d s) = true /\
  gm (after X d s) = gm s /\
  (keytxt = 0 -> emitted X d s = [pressed]) /\
  (keytxt <> 0 -> emitted X d s = [pressed; typed]).
Proof.
  intros Hc Hl Hk keysym jkey jmodifiers keytxt pressed typed.
  split; [apply callback_proc_returns; assumption |].
  rewrite after_live, handled_gm, emitted_live by assumption.
  rewrite switch_key_press by assumption. cbn [fst snd].
  split; [reflexivity |].
  fold (event_code d) (event_mask d). fold keysym. fold keytxt.
  split; intros Hz.
  - rewrite Hz. reflexivity.
  - apply Z.eqb_neq in Hz. rewrite Hz. reflexivity.
Qed.

Lemma key_press_pressed_then_typed_witness :
  let X := Sample.externals in
  let s := Sample.capturing in
  (capturing s /\ live (Sample.event KeyPress 97 0 1000) = true) /\
  emitted X (Sample.event KeyPress 97 0 1000) s =
    [NativeKeyEvent NATIVE_KEY_PRESSED 1000 0 97 97 65535 1;
     NativeKeyEvent NATIVE_KEY_TYPED 1000 0 97 0 97 1] /\
  emitted X (Sample.event KeyPress 200 0 1000) s =
    [NativeKeyEvent NATIVE_KEY_PRESSED 1000 0 200 200 65535 1].
Proof.
  intros X s. split; [split; [exact sample_capturing | reflexivity] |].
  split.
  - apply (key_press_pressed_then_typed X s (Sample.event KeyPress 97 0 1000)
             sample_capturing eq_refl eq_refl). evaluate.
  - apply (key_press_pressed_then_typed X s (Sample.event KeyPress 200 0 1000)
             sample_capturing eq_refl eq_refl). reflexivity.
Defined.

(** X2. A key release that the callback processes dispatches exactly one
    object, NATIVE_KEY_RELEASED with CHAR_UNDEFINED; no typed event
    follows a release, and the mouse globals are left as they were. *)
Theorem key_release_single_event (X : Externals) (s : system) (d : delivery) :
  capturing s -> live d = true -> event_type d = KeyRelease ->
  let jkey :=
    NativeToJKey X (KeyCodeToKeySym X (event_code d) (event_mask d)) in
  returned (callback_proc X d s) = true /\
  gm (after X d s) = gm s /\
  emitted X d s =
    [NativeKeyEvent NATIVE_KEY_RELEASED (event_time d)
       (NativeToJEventMask X (event_mask d)) (event_code d)
       (keycode jkey) (CHAR_UNDEFINED X) (location jkey)] /\
  existsb (has_id NATIVE_KEY_TYPED) (emitted X d s) = false.
Proof.
  intros Hc Hl Hk jkey.
  split; [apply callback_proc_returns; assumption |].
  rewrite after_live, handled_gm, emitted_live by assumption.
  rewrite switch_key_release by assumption.
  repeat split; reflexivity.
Qed.

Lemma key_release_single_event_witness :
  let X := Sample.externals in
  let s := Sample.capturing in
  capturing s /\
  emitted X (Sample.event KeyRelease 97 0 1000) s =
    [NativeKeyEvent NATIVE_KEY_RELEASED 1000 0 97 97 65535 1].
Proof.
  intros X s. split; [exact sample_capturing |].
  apply (key_release_single_event X s (Sample.event KeyRelease 97 0 1000)
           sample_capturing eq_refl eq_refl).
Defined.

(** X3. Protocol data that arrives while [disp_ctrl] is NULL, on a thread
    that is not attached to the Java machine, or while nobody holds the
    running mutex, is dropped: the callback returns, dispatches nothing and
    leaves the whole state, both mutexes included, as it was. *)
Theorem callback_drops_data_when_not_ready
    (X : Externals) (s : system) (d : delivery) :
  event_data d = true ->
  disp_ctrl (gh s) = None \/ jni_ok d = false \/
    running_locked (gh s) = false ->
  callback_proc X d s = Returns tt s /\ emitted X d s = [].
Proof.
  intros Hd Hnot.
  assert (E : callback_proc X d s = Returns tt s).
  { unfold event_data in Hd. unfold callback_proc.
    destruct s as [m [dctl ctx rl cl tid] r sk lg]. cbn in Hnot.
    destruct (hook_category (hook d)); try discriminate Hd;
      unfold bind, gets, modify, ret, pthread_mutex_trylock,
        pthread_mutex_unlock, locked; cbn;
      (destruct dctl; [| reflexivity]);
      (destruct (jni_ok d); [| reflexivity]);
      (destruct rl; [| reflexivity]);
      destruct Hnot as [H | [H | H]]; discriminate H. }
  split; [exact E |].
  apply emitted_untouched. unfold after. rewrite E. reflexivity.
Qed.

Lemma callback_drops_data_when_not_ready_witness :
  let d := Sample.press 1 1000 in
  event_data d = true /\ running_locked (gh system_init) = false /\
  callback_proc Sample.externals d system_init = Returns tt system_init.
Proof.
  intros d. split; [reflexivity |]. split; [reflexivity |].
  apply (callback_drops_data_when_not_ready Sample.externals system_init d
           eq_refl (or_introl eq_refl)).
Defined.

(** X4. An event whose type is none of KeyPress, KeyRelease, ButtonPress,
    ButtonRelease and MotionNotify falls through the switch: nothing is
    dispatched and the state is left as it was. *)
Theorem unhandled_event_type_ignored
    (X : Externals) (s : system) (d : delivery) :
  capturing s -> live d = true ->
  event_type d < KeyPress \/ MotionNotify < event_type d ->
  callback_proc X d s = Returns tt s /\ emitted X d s = [].
Proof.
  intros Hc Hl Hty.
  assert (Hsw : switch_event_type X (event_time d) (hook_data (hook d)) (gm s)
                = (gm s, [])).
  { unfold event_type, KeyPress, MotionNotify in Hty.
    apply switch_unhandled;
      unfold KeyPress, KeyRelease, ButtonPress, ButtonRelease, MotionNotify;
      lia. }
  split.
  - rewrite callback_proc_live by assumption. unfold handled. rewrite Hsw.
    destruct s as [m h r sk lg]. cbn. unfold with_sink, with_mouse. cbn.
    rewrite app_nil_r. reflexivity.
  - rewrite emitted_live by assumption. rewrite Hsw. reflexivity.
Qed.

Lemma unhandled_event_type_ignored_witness :
  let d := Sample.event 7 0 0 1000 in
  capturing Sample.capturing /\ live d = true /\
  callback_proc Sample.externals d Sample.capturing =
    Returns tt Sample.capturing.
Proof.
  intros d. split; [exact sample_capturing |]. split; [reflexivity |].
  apply (unhandled_event_type_ignored Sample.externals Sample.capturing d
           sample_capturing eq_refl).
  right. evaluate.
Defined.

(** X5. A button code that is neither 1, 2, 3, 8, 9 nor a wheel notch (0,
    the horizontal wheel codes 6 and 7, or 10 and above) is not reported:
    its release changes nothing, and its press dispatches nothing, but the
    press still goes through the click counting, so it sets [click_time]
    and counts as a click for the next press. *)
Theorem unreported_button_still_counts
    (X : Externals) (s : system) (d : delivery) :
  capturing s -> live d = true ->
  is_unreported_code (event_code d) = true ->
  (event_type d = ButtonRelease ->
   callback_proc X d s = Returns tt s /\ emitted X d s = []) /\
  (event_type d = ButtonPress ->
   emitted X d s = [] /\
   gm (after X d s) = track_click X (event_time d) (gm s) /\
   forall d',
     live d' = true -> event_type d' = ButtonPress ->
     is_button_code (event_code d') = true ->
     mouse_ok (gm s) -> 0 <= event_time d -> 0 <= event_time d' ->
     event_time d' - event_time d <= GetMultiClickTime X ->
     exists jmodifiers x y jbutton,
       emitted X d' (after X d s) =
         [NativeMouseButtonEvent NATIVE_MOUSE_PRESSED (event_time d')
            jmodifiers x y
            (CInt.to_ushort (click_count (gm (after X d s)) + 1))
            jbutton]).
Proof.
  intros Hc Hl Hu. split.
  - intros Hr.
    assert (Hb : is_button_code (detail (hook_data (hook d))) = false).
    { unfold is_unreported_code in Hu. apply andb_true_iff in Hu as [Hb _].
      apply negb_true_iff in Hb. exact Hb. }
    assert (Hsw : switch_event_type X (event_time d) (hook_data (hook d))
                    (gm s) = (gm s, [])).
    { apply injective_projections; cbn.
      - apply switch_release_mouse. assumption.
      - apply switch_release_other; assumption. }
    split.
    + rewrite callback_proc_live by assumption. unfold handled. rewrite Hsw.
      destruct s as [m h r sk lg]. unfold with_sink, with_mouse. cbn.
      rewrite app_nil_r. reflexivity.
    + rewrite emitted_live by assumption. rewrite Hsw. reflexivity.
  - intros Hp.
    assert (Hgm : gm (after X d s) = track_click X (event_time d) (gm s)).
    { rewrite after_live, handled_gm by assumption.
      rewrite switch_press_unreported by assumption. reflexivity. }
    split; [| split; [exact Hgm |]].
    + rewrite emitted_live by assumption.
      rewrite switch_press_unreported by assumption. reflexivity.
    + intros d' Hl' Hp' Hb' [Hn Ht] Hd Hd'.
      assert (Hc' : capturing (after X d s)).
      { rewrite after_live by assumption. apply handled_capturing.
        assumption. }
      assert (Hr : 0 <= event_time d <= CInt.LONG_MAX)
        by (pose proof (event_time_range d); lia).
      assert (Hr' : 0 <= event_time d' <= CInt.LONG_MAX)
        by (pose proof (event_time_range d'); lia).
      intros Hle.
      rewrite emitted_live by assumption.
      rewrite switch_press_button by assumption.
      assert (Htime : click_time (gm (after X d s)) = event_time d)
        by (rewrite Hgm; apply track_click_time; assumption).
      rewrite track_click_count by (rewrite ?Htime; assumption).
      rewrite Htime. apply Z.leb_le in Hle. rewrite Hle.
      repeat eexists.
Qed.

Lemma unreported_button_still_counts_witness :
  let X := Sample.externals in
  let s := Sample.capturing in
  (capturing s /\ is_unreported_code 6 = true) /\
  emitted X (Sample.press 6 1000) s = [] /\
  emitted X (Sample.press 1 1100) (after X (Sample.press 6 1000) s) =
    [NativeMouseButtonEvent NATIVE_MOUSE_PRESSED 1100 0 10 20 2 1].
Proof.
  intros X s. split; [split; [exact sample_capturing | reflexivity] |].
  destruct (unreported_button_still_counts X s (Sample.press 6 1000)
              sample_capturing eq_refl eq_refl) as [_ Hpress].
  destruct (Hpress eq_refl) as (Hnone & _ & Hnext).
  split; [exact Hnone |].
  destruct (Hnext (Sample.press 1 1100) eq_refl eq_refl eq_refl
              sample_mouse_ok) as (jm & x & y & b & E);
    [evaluate | evaluate | evaluate |].
  reflexivity.
Defined.

(** X6. Whatever the delivery and the state, one call of the callback only
    appends to the sink, appends at most two objects, and stamps each of
    them with the time read for this event and with the translated
    modifier mask of this event. *)
Theorem callback_dispatch_discipline
    (X : Externals) (s : system) (d : delivery) :
  sink (after X d s) = sink s ++ emitted X d s /\
  (length (emitted X d s) <= 2)%nat /\
  forall e, In e (emitted X d s) ->
            when_of e = event_time d /\
            modifiers_of e = NativeToJEventMask X (event_mask d).
Proof.
  destruct (after_cases X d s) as [[_ Hs] | [_ Hh]].
  - rewrite (emitted_untouched X d s Hs), Hs, app_nil_r.
    split; [reflexivity |]. split; [cbn; lia |]. intros e [].
  - rewrite (emitted_handled X d s Hh), Hh, handled_sink.
    split; [reflexivity |].
    apply (switch_objects X (event_time d) (hook_data (hook d)) (gm s)).
Qed.

Lemma callback_dispatch_discipline_witness :
  let X := Sample.externals in
  let s := after X (Sample.press 1 900) Sample.capturing in
  let d := Sample.release 1 1000 in
  length (emitted X d s) = 2%nat /\
  forall e, In e (emitted X d s) -> when_of e = 1000 /\ modifiers_of e = 0.
Proof.
  intros X s d. split; [reflexivity |].
  apply (callback_dispatch_discipline X s d).
Defined.

Section MouseInvariant.

Variable X : Externals.

Lemma switch_mouse_ok t data m :
  0 <= t <= CInt.LONG_MAX -> mouse_ok m ->
  mouse_ok (fst (switch_event_type X t data m)).
Proof.
  intros Ht Hm.
  destruct (Z.eq_dec (type data) ButtonPress) as [Hp | Hp].
  - rewrite switch_press_mouse by assumption.
    apply track_click_ok; assumption.
  - destruct (Z.eq_dec (type data) MotionNotify) as [Hn | Hn].
    + rewrite switch_motion_mouse by assumption.
      destruct Hm as [Hc Hk]. split; cbn; [| assumption].
      destruct (_ && _); [unfold CInt.USHRT_MAX; lia | assumption].
    + rewrite switch_other_mouse by assumption. assumption.
Qed.

Lemma after_mouse_ok d s :
  0 <= event_time d -> mouse_ok (gm s) -> mouse_ok (gm (after X d s)).
Proof.
  intros Hd Hm.
  destruct (after_cases X d s) as [[Hg _] | [_ Hh]].
  - rewrite Hg. assumption.
  - rewrite Hh, handled_gm. apply switch_mouse_ok; [| assumption].
    pose proof (event_time_range d). lia.
Qed.

Lemma after_all_mouse_ok ds : forall s,
  Forall (fun d => 0 <= event_time d) ds -> mouse_ok (gm s) ->
  mouse_ok (gm (after_all X ds s)).
Proof.
  induction ds as [| d ds IH]; intros s Hds Hm.
  - assumption.
  - inversion Hds as [| ? ? Hd Hds']; subst.
    rewrite after_all_cons.
    pose proof (after_mouse_ok d s Hd Hm) as K. unfold after in K.
    destruct (callback_proc X d s) as [[] s1 | s1]; cbn in K.
    + apply IH; assumption.
    + assumption.
Qed.

End MouseInvariant.

(** X7. The mouse globals stay values of their C types along every
    sequence of deliveries, of whatever category and in whatever state of
    the hook, whose clock readings are not before the epoch: [click_count]
    stays within [unsigned short] and [click_time] stays a non-negative
    [long]. *)
Theorem mouse_globals_stay_in_range
    (X : Externals) (s : system) (ds : list delivery) :
  mouse_ok (gm s) ->
  Forall (fun d => 0 <= event_time d) ds ->
  mouse_ok (gm (after_all X ds s)).
Proof. intros Hm Hds. apply after_all_mouse_ok; assumption. Qed.

Lemma mouse_globals_stay_in_range_witness :
  let ds := [Sample.press 1 1000; Sample.motion 0 5000; Sample.press 4 5001] in
  mouse_ok (gm Sample.capturing) /\
  mouse_ok (gm (after_all Sample.externals ds Sample.capturing)).
Proof.
  intros ds. split; [exact sample_mouse_ok |].
  apply (mouse_globals_stay_in_range Sample.externals Sample.capturing ds
           sample_mouse_ok).
  repeat constructor; evaluate.
Defined.



Section Bracket.

Variable X : Externals.

Lemma callbacks_app a : forall b s,
  callbacks X (a ++ b) s =
  match callbacks X a s with
  | Returns _ s1 => callbacks X b s1
  | Blocks s1 => Blocks s1
  end.
Proof.
  induction a as [| d a IH]; intros b s; cbn.
  - reflexivity.
  - unfold bind. destruct (callback_proc X d s) as [[] s1 | s1];
      [apply IH | reflexivity].
Qed.

Lemma start_of_data_proc d s :
  hook_category (hook d) = XRecordStartOfData ->
  running_locked (gh s) = false ->
  callback_proc X d s =
  Returns tt (set_locked hook_control_mutex false
                (set_locked hook_running_mutex true s)).
Proof.
  intros Hd Hr. unfold callback_proc. rewrite Hd.
  unfold bind, pthread_mutex_lock, locked. rewrite Hr. reflexivity.
Qed.

Lemma end_of_data_proc d s :
  hook_category (hook d) = XRecordEndOfData ->
  callback_proc X d s = Returns tt (set_locked hook_running_mutex false s).
Proof. intros Hd. unfold callback_proc. rewrite Hd. reflexivity. Qed.

Lemma data_dropped_unlocked d s :
  event_data d = true -> running_locked (gh s) = false ->
  callback_proc X d s = Returns tt s.
Proof.
  intros Hd Hr. unfold event_data in Hd. unfold callback_proc.
  destruct s as [m [dctl ctx rl cl tid] r sk lg]. cbn in Hr. subst rl.
  destruct (hook_category (hook d)); try discriminate Hd;
    unfold bind, gets, modify, ret, pthread_mutex_trylock,
      pthread_mutex_unlock, locked; cbn;
    (destruct dctl; [| reflexivity]);
    (destruct (jni_ok d); reflexivity).
Qed.

Lemma data_dropped_no_display d s :
  event_data d = true -> disp_ctrl (gh s) = None ->
  callback_proc X d s = Returns tt s.
Proof.
  intros Hd Hn. unfold event_data in Hd. unfold callback_proc.
  destruct (hook_category (hook d)); try discriminate Hd;
    unfold bind, gets; rewrite Hn; reflexivity.
Qed.

Lemma all_dropped_unlocked ds : forall s,
  forallb event_data ds = true -> running_locked (gh s) = false ->
  callbacks X ds s = Returns tt s.
Proof.
  induction ds as [| d ds IH]; intros s Hd Hr; cbn in *.
  - reflexivity.
  - apply andb_true_iff in Hd as [Hd Hds].
    unfold bind. rewrite data_dropped_unlocked by assumption.
    apply IH; assumption.
Qed.

Lemma all_dropped_no_display ds : forall s,
  forallb event_data ds = true -> disp_ctrl (gh s) = None ->
  callbacks X ds s = Returns tt s.
Proof.
  induction ds as [| d ds IH]; intros s Hd Hn; cbn in *.
  - reflexivity.
  - apply andb_true_iff in Hd as [Hd Hds].
    unfold bind. rewrite data_dropped_no_display by assumption.
    apply IH; assumption.
Qed.

Lemma is_running_probe s :
  is_hook_thread_running s = Returns (running_locked (gh s)) s.
Proof.
  unfold is_hook_thread_running, bind, pthread_mutex_trylock, locked.
  destruct s as [m [dctl ctx rl cl tid] r sk lg]. cbn.
  destruct rl; reflexivity.
Qed.

(** The whole of one recording: start of data, events, end of data, and
    whatever protocol data comes after the end. *)
Lemma recording_runs d0 evs d1 late s :
  hook_category (hook d0) = XRecordStartOfData ->
  hook_category (hook d1) = XRecordEndOfData ->
  disp_ctrl (gh s) <> None -> running_locked (gh s) = false ->
  forallb live evs = true -> forallb event_data late = true ->
  callbacks X (d0 :: evs ++ d1 :: late) s =
  Returns tt
    (set_locked hook_running_mutex false
       (fold_left (fun s d => handled X d s) evs
          (set_locked hook_control_mutex false
             (set_locked hook_running_mutex true s)))).
Proof.
  intros H0 H1 Hd Hr Hl Hlate.
  change (d0 :: evs ++ d1 :: late) with ([d0] ++ evs ++ d1 :: late).
  rewrite callbacks_app. cbn [callbacks]. unfold bind at 1.
  rewrite start_of_data_proc by assumption. cbn [ret].
  set (s1 := set_locked hook_control_mutex false
               (set_locked hook_running_mutex true s)).
  assert (Hc : capturing s1) by (split; [exact Hd | reflexivity]).
  rewrite callbacks_app, callbacks_live by assumption.
  cbn [callbacks]. unfold bind.
  rewrite end_of_data_proc by assumption.
  apply all_dropped_unlocked; [assumption | reflexivity].
Qed.

End Bracket.

(** X9. One recording, from start of data to end of data.  The start of
    data takes the running mutex and releases the control mutex, so that
    [is_hook_thread_running] answers true; the events between are
    processed; the end of data releases the running mutex, so that the
    probe answers false; and protocol data that arrives after the end of
    data is dropped: the sink and the mouse globals are what they were at
    the end of data. *)
Theorem late_data_after_end_of_data_dropped
    (X : Externals) (s : system) (d0 d1 : delivery)
    (evs late : list delivery) :
  hook_category (hook d0) = XRecordStartOfData ->
  hook_category (hook d1) = XRecordEndOfData ->
  disp_ctrl (gh s) <> None -> running_locked (gh s) = false ->
  forallb live evs = true -> forallb event_data late = true ->
  let s1 := after X d0 s in
  let s2 := after_all X (d0 :: evs) s in
  let s3 := after_all X (d0 :: evs ++ d1 :: late) s in
  returned (callbacks X (d0 :: evs ++ d1 :: late) s) = true /\
  capturing s1 /\ control_locked (gh s1) = false /\
  result (is_hook_thread_running s1) = Some true /\
  result (is_hook_thread_running s3) = Some false /\
  sink s3 = sink s2 /\ gm s3 = gm s2.
Proof.
  intros H0 H1 Hd Hr Hl Hlate s1 s2 s3.
  assert (E3 := recording_runs X d0 evs d1 late s H0 H1 Hd Hr Hl Hlate).
  assert (E2 : callbacks X (d0 :: evs) s =
               Returns tt
                 (fold_left (fun s d => handled X d s) evs
                    (set_locked hook_control_mutex false
                       (set_locked hook_running_mutex true s)))).
  { cbn [callbacks]. unfold bind.
    rewrite start_of_data_proc by assumption.
    apply callbacks_live; [split; [exact Hd | reflexivity] | assumption]. }
  assert (E1 : s1 = set_locked hook_control_mutex false
                      (set_locked hook_running_mutex true s)).
  { unfold s1, after. rewrite start_of_data_proc by assumption.
    reflexivity. }
  unfold s3, s2, after_all. rewrite E3, E2, E1. cbn [final returned].
  rewrite !is_running_probe. cbn [result].
  split; [reflexivity |]. split; [split; [exact Hd | reflexivity] |].
  repeat split; reflexivity.
Qed.

Lemma late_data_after_end_of_data_dropped_witness :
  let X := Sample.externals in
  let s := after X Faults.end_of_data Sample.capturing in
  let ds := Faults.start_of_data ::
            [Sample.press 1 1000] ++
            Faults.end_of_data :: [Sample.press 1 1100] in
  (disp_ctrl (gh s) <> None /\ running_locked (gh s) = false) /\
  sink (after_all X ds s) =
    [NativeMouseButtonEvent NATIVE_MOUSE_PRESSED 1000 0 10 20 1 1] /\
  result (is_hook_thread_running (after_all X ds s)) = Some false.
Proof.
  intros X s ds.
  assert (Hd : disp_ctrl (gh s) <> None) by discriminate.
  split; [split; [exact Hd | reflexivity] |].
  destruct (late_data_after_end_of_data_dropped X s Faults.start_of_data
              Faults.end_of_data [Sample.press 1 1000] [Sample.press 1 1100]
              eq_refl eq_refl Hd eq_refl eq_refl eq_refl)
    as (_ & _ & _ & _ & Hprobe & Hsink & _).
  split; [etransitivity; [exact Hsink | reflexivity] | exact Hprobe].
Defined.

(** * Further properties of the life cycle *)

Lemma bind_assoc {A B C : Type} (c : M A) (k1 : A -> M B) (k2 : B -> M C) s :
  bind (bind c k1) k2 s = bind c (fun a => bind (k1 a) k2) s.
Proof. unfold bind. destruct (c s); reflexivity. Qed.

Lemma bind_returns {A B : Type} (c : M A) (k : A -> M B) s a s1 :
  c s = Returns a s1 -> bind c k s = k a s1.
Proof. intros H. unfold bind. rewrite H. reflexivity. Qed.

Lemma bind_blocks {A B : Type} (c : M A) (k : A -> M B) s s1 :
  c s = Blocks s1 -> bind c k s = Blocks s1.
Proof. intros H. unfold bind. rewrite H. reflexivity. Qed.

(** One call on a state that is written out, evaluated. *)
Ltac step :=
  rewrite ?bind_assoc;
  erewrite bind_returns
    by (cbv -[Z.add Z.sub Z.eqb app filter callbacks exit_status negb fst
              pthread_t Display XRecordContext];
        reflexivity);
  cbv beta iota.

(** As many calls as evaluate, with [H] for a test that does not. *)
Ltac run H :=
  repeat (cbv beta iota; rewrite ?H; cbn [negb Z.eqb]; step).

Lemma exit_status_snoc tid st l :
  exit_status tid l = None -> exit_status tid (l ++ [(tid, st)]) = Some st.
Proof.
  induction l as [| [t st'] l IH]; cbn; intros H.
  - rewrite Z.eqb_refl. reflexivity.
  - destruct (t =? tid); [discriminate | apply IH; assumption].
Qed.

Lemma exit_status_joined tid l :
  exit_status tid (filter (fun p => negb (fst p =? tid)) l) = None.
Proof.
  induction l as [| [t st] l IH]; cbn.
  - reflexivity.
  - destruct (t =? tid) eqn:E; cbn; [assumption |].
    rewrite E. assumption.
Qed.

Lemma not_alive_after_exit tid l :
  ~ In tid (filter (fun t => negb (t =? tid)) l).
Proof.
  intros H. apply filter_In in H as [_ H].
  rewrite Z.eqb_refl in H. discriminate.
Qed.

Lemma filter_other_thread tid l :
  ~ In tid l -> filter (fun t => negb (t =? tid)) l = l.
Proof.
  induction l as [| t l IH]; cbn; intros H.
  - reflexivity.
  - destruct (Z.eqb_spec t tid) as [E | E]; cbn.
    + exfalso. apply H. left. exact E.
    + rewrite IH; [reflexivity | intros Hin; apply H; right; exact Hin].
Qed.

Lemma lock_free mx s :
  locked mx s = false ->
  pthread_mutex_lock mx s = Returns 0 (set_locked mx true s).
Proof. intros H. unfold pthread_mutex_lock. rewrite H. reflexivity. Qed.

Section ThreadProc.

Variable X : Externals.

Lemma callbacks_final ds s :
  returned (callbacks X ds s) = true ->
  callbacks X ds s = Returns tt (after_all X ds s).
Proof.
  unfold after_all. destruct (callbacks X ds s) as [[] s1 | s1]; cbn;
    [reflexivity | discriminate].
Qed.

End ThreadProc.

(** X10. [thread_proc] ends the same way whether the context could be
    enabled or not: when the enable call comes back, the thread releases
    the control mutex, is no longer among the live threads, and leaves its
    status to be joined, RETURN_SUCCESS if the enable call returned
    non-zero and RETURN_FAILURE if it returned 0.  It opens and closes
    nothing. *)
Theorem thread_proc_releases_control_and_exits
    (X : Externals) (tid : pthread_t) (o : option (list delivery))
    (s : system) :
  exit_status tid (exited (res s)) = None ->
  returned (XRecordEnableContext X Capture (context (gh s)) o s) = true ->
  let st := match o with
            | Some _ => RETURN_SUCCESS
            | None => RETURN_FAILURE
            end in
  exists s',
    thread_proc X tid o s = Returns st s' /\
    control_locked (gh s') = false /\
    ~ In tid (threads (res s')) /\
    exit_status tid (exited (res s')) = Some st /\
    connections (res s') = connections (res s) /\
    contexts (res s') = contexts (res s).
Proof.
  intros Hex Hret st. subst st.
  unfold thread_proc. step.
  destruct o as [ds |].
  - unfold XRecordEnableContext in *. 
    set (s0 := with_calls
                 (calls s ++ [(Capture, CallXRecordEnableContext (context (gh s)))])
                 s) in *.
    assert (Hcb : returned (callbacks X ds s0) = true).
    { revert Hret. unfold bind, log, modify. fold s0.
      destruct (callbacks X ds s0); cbn; [reflexivity | discriminate]. }
    apply callbacks_final in Hcb.
    destruct (after_all_frame X ds s0) as (Fr & _).
    remember (after_all X ds s0) as s1 eqn:Es1. clear Es1.
    assert (E : bind (log Capture (CallXRecordEnableContext (context (gh s))))
                  (fun _ => bind (callbacks X ds) (fun _ => ret 1)) s
                = Returns 1 s1).
    { unfold bind at 1. unfold log, modify. fold s0.
      unfold bind. rewrite Hcb. reflexivity. }
    rewrite (bind_returns _ _ _ _ _ E). cbv beta iota. cbn [Z.eqb negb].
    clear E Hcb.
    destruct s1 as [m1 [dctl1 ctx1 rl1 cl1 tid1] r1 sk1 lg1].
    cbn in Fr. subst r1.
    unfold pthread_exit. step. step.
    eexists. split; [reflexivity |]. cbn.
    split; [reflexivity |]. split; [apply not_alive_after_exit |].
    split; [apply exit_status_snoc; assumption |].
    split; reflexivity.
  - unfold XRecordEnableContext, pthread_exit. run Hex.
    eexists. split; [reflexivity |]. cbn.
    split; [reflexivity |]. split; [apply not_alive_after_exit |].
    split; [apply exit_status_snoc; assumption |].
    split; reflexivity.
Qed.

Lemma thread_proc_releases_control_and_exits_witness :
  let X := Sample.externals in
  let s := set_locked hook_control_mutex true
             (after X Faults.end_of_data Sample.capturing) in
  let o := Some [Faults.start_of_data; Sample.press 1 1000;
                 Faults.end_of_data] in
  (exit_status 3 (exited (res s)) = None /\
   returned (XRecordEnableContext X Capture (context (gh s)) o s) = true) /\
  exists s',
    thread_proc X 3 o s = Returns RETURN_SUCCESS s' /\
    control_locked (gh s') = false /\
    exit_status 3 (exited (res s')) = Some RETURN_SUCCESS.
Proof.
  intros X s o. split; [split; reflexivity |].
  destruct (thread_proc_releases_control_and_exits X 3 o s eq_refl eq_refl)
    as (s' & E & Hc & _ & Hx & _).
  exists s'. repeat split; assumption.
Defined.

Section StartPaths.

Variable X : Externals.

Lemma callbacks_started d0 evs s :
  hook_category (hook d0) = XRecordStartOfData ->
  disp_ctrl (gh s) <> None -> running_locked (gh s) = false ->
  forallb live evs = true ->
  callbacks X (d0 :: evs) s =
  Returns tt
    (fold_left (fun s d => handled X d s) evs
       (set_locked hook_control_mutex false
          (set_locked hook_running_mutex true s))).
Proof.
  intros H0 Hd Hr Hl. cbn [callbacks]. unfold bind.
  rewrite start_of_data_proc by assumption.
  apply callbacks_live; [split; [exact Hd | reflexivity] | assumption].
Qed.

Lemma handled_all_frame evs : forall s,
  gh (fold_left (fun s d => handled X d s) evs s) = gh s /\
  res (fold_left (fun s d => handled X d s) evs s) = res s /\
  calls (fold_left (fun s d => handled X d s) evs s) = calls s.
Proof.
  induction evs as [| d evs IH]; intros s; cbn.
  - repeat split; reflexivity.
  - destruct (IH (handled X d s)) as (I1 & I2 & I3).
    repeat split; assumption.
Qed.

Lemma exited_unchanged tid l :
  exit_status tid l = None ->
  filter (fun p : pthread_t * status => negb (fst p =? tid)) l = l.
Proof.
  induction l as [| [t st] l IH]; cbn; intros H.
  - reflexivity.
  - destruct (t =? tid); [discriminate |]. cbn.
    rewrite IH by assumption. reflexivity.
Qed.

End StartPaths.

(** X11. The start that succeeds.  From Idle, when the setup succeeds, the
    enable call that [start_native_thread] makes itself returns 0, the
    thread is created and its enable call has delivered the start of data
    (and any events) by the time the caller gets the control mutex, the
    call returns RETURN_SUCCESS with the hook running: the running mutex
    held, the control mutex free, [disp_ctrl], [context] and
    [hook_thread_id] set, one more thread alive, both displays open and
    the context created. *)
Theorem start_succeeds_when_capture_starts
    (X : Externals) (p : platform) (s : system)
    (dc dd : Display) (tid : pthread_t) (d0 : delivery)
    (evs : list delivery) :
  idle s ->
  open_ctrl p = Some dc -> open_data p = Some dd ->
  query_version p = true -> alloc_range p = true ->
  create_context p <> 0 -> enable p = None ->
  spawn p = Some tid -> capture p = InEnable (d0 :: evs) ->
  hook_category (hook d0) = XRecordStartOfData ->
  forallb live evs = true ->
  exists s',
    start_native_thread X p s = Returns RETURN_SUCCESS s' /\
    running s' /\
    result (is_hook_thread_running s') = Some true /\
    disp_ctrl (gh s') = Some dc /\
    context (gh s') = create_context p /\
    hook_thread_id (gh s') = tid /\
    threads (res s') = threads (res s) ++ [tid] /\
    connections (res s') = connections (res s) ++ [dc; dd] /\
    contexts (res s') = contexts (res s) ++ [create_context p].
Proof.
  intros [Hr Hc] Hoc Hod Hq Ha Hc0 Hen Hsp Hcap H0 Hl.
  apply Z.eqb_neq in Hc0.
  destruct p as [oc od q a c en sp cap]. cbn in *. subst.
  destruct s as [m [dctl ctx rl cl tid0] [conn ctxs rg ih th ex] sk lg].
  cbn in Hr, Hc. subst.
  unfold start_native_thread, setup, handshake, run_capture,
    XRecordCreateContext, XRecordEnableContext.
  cbv [open_ctrl open_data query_version alloc_range create_context
       enable spawn capture].
  run Hc0.
  rewrite ?bind_assoc.
  erewrite bind_returns
    by (apply callbacks_started;
        [assumption | discriminate | reflexivity | assumption]).
  match goal with
  | |- context [fold_left ?f evs ?s0] =>
      destruct (handled_all_frame X evs s0) as (F1 & F2 & F3);
      remember (fold_left f evs s0) as s2 eqn:Es2; clear Es2
  end.
  destruct s2 as [m2 h2 r2 sk2 lg2]. cbn in F1, F2, F3. subst.
  run Hc0.
  eexists. split; [reflexivity |].
  unfold running. cbn. rewrite <- !app_assoc.
  repeat split; reflexivity.
Qed.

Lemma start_succeeds_when_capture_starts_witness :
  let p :=
    {| open_ctrl := Some 1; open_data := Some 2; query_version := true;
       alloc_range := true; create_context := 7; enable := None;
       spawn := Some 3;
       capture := InEnable [Faults.start_of_data; Sample.press 1 1000] |} in
  idle system_init /\
  exists s',
    start_native_thread Sample.externals p system_init =
      Returns RETURN_SUCCESS s' /\
    running s' /\ threads (res s') = [3] /\ connections (res s') = [1; 2].
Proof.
  intros p.
  assert (Hi : idle system_init) by (split; reflexivity).
  split; [exact Hi |].
  destruct (start_succeeds_when_capture_starts Sample.externals p
              system_init 1 2 3 Faults.start_of_data [Sample.press 1 1000]
              Hi eq_refl eq_refl eq_refl eq_refl)
    as (s' & E & Hrun & _ & _ & _ & _ & Hth & Hconn & _);
    [discriminate | reflexivity | reflexivity | reflexivity | reflexivity
     | reflexivity |].
  exists s'. repeat split; try assumption; apply Hrun.
Defined.

(** X12. The start whose thread cannot enable the context.  From Idle,
    when the setup succeeds but both enable calls return 0, the caller
    joins the thread and returns its status, RETURN_FAILURE; no thread is
    left, nothing is left to join and both mutexes are free; but the
    context that was created is not freed and the two displays stay
    open. *)
Theorem start_joins_thread_that_fails
    (X : Externals) (p : platform) (s : system)
    (dc dd : Display) (tid : pthread_t) :
  idle s ->
  open_ctrl p = Some dc -> open_data p = Some dd ->
  query_version p = true -> alloc_range p = true ->
  create_context p <> 0 -> enable p = None ->
  spawn p = Some tid -> capture p = Exited None ->
  ~ In tid (threads (res s)) -> exit_status tid (exited (res s)) = None ->
  exists s',
    start_native_thread X p s = Returns RETURN_FAILURE s' /\
    idle s' /\
    threads (res s') = threads (res s) /\
    exited (res s') = exited (res s) /\
    contexts (res s') = contexts (res s) ++ [create_context p] /\
    connections (res s') = connections (res s) ++ [dc; dd] /\
    In (Caller, CallPthreadJoin tid) (calls s').
Proof.
  intros [Hr Hc] Hoc Hod Hq Ha Hc0 Hen Hsp Hcap Hth Hex.
  apply Z.eqb_neq in Hc0.
  destruct p as [oc od q a c en sp cap]. cbn in *. subst.
  destruct s as [m [dctl ctx rl cl tid0] [conn ctxs rg ih th ex] sk lg].
  cbn in Hr, Hc, Hth, Hex. subst.
  unfold start_native_thread, setup, handshake, run_capture, thread_proc,
    pthread_exit, pthread_join, XRecordCreateContext, XRecordEnableContext.
  cbv [open_ctrl open_data query_version alloc_range create_context
       enable spawn capture].
  run Hc0.
  rewrite (exit_status_snoc tid RETURN_FAILURE ex Hex).
  run Hc0.
  eexists. split; [reflexivity |].
  unfold idle. cbn.
  rewrite !filter_app. cbn. rewrite Z.eqb_refl. cbn.
  rewrite filter_other_thread by assumption.
  rewrite exited_unchanged by assumption.
  rewrite !app_nil_r, <- !app_assoc.
  repeat split; try reflexivity.
  apply in_or_app. right. cbn. tauto.
Qed.

Lemma start_joins_thread_that_fails_witness :
  let p :=
    {| open_ctrl := Some 1; open_data := Some 2; query_version := true;
       alloc_range := true; create_context := 7; enable := None;
       spawn := Some 3; capture := Exited None |} in
  idle system_init /\
  exists s',
    start_native_thread Sample.externals p system_init =
      Returns RETURN_FAILURE s' /\
    threads (res s') = [] /\ contexts (res s') = [7] /\
    connections (res s') = [1; 2].
Proof.
  intros p.
  assert (Hi : idle system_init) by (split; reflexivity).
  split; [exact Hi |].
  destruct (start_joins_thread_that_fails Sample.externals p system_init
              1 2 3 Hi eq_refl eq_refl eq_refl eq_refl)
    as (s' & E & _ & Hth & _ & Hctx & Hconn & _);
    [discriminate | reflexivity | reflexivity | reflexivity
     | intros [] | reflexivity |].
  exists s'. repeat split; assumption.
Defined.

(** X13. The start whose thread cannot be created.  From Idle, when the
    setup succeeds, the enable call of [start_native_thread] returns 0 and
    [pthread_create] fails, the call returns RETURN_FAILURE with both
    mutexes free and no thread; the context it created is not freed and
    the two displays stay open. *)
Theorem start_thread_creation_fails
    (X : Externals) (p : platform) (s : system) (dc dd : Display) :
  idle s ->
  open_ctrl p = Some dc -> open_data p = Some dd ->
  query_version p = true -> alloc_range p = true ->
  create_context p <> 0 -> enable p = None -> spawn p = None ->
  exists s',
    start_native_thread X p s = Returns RETURN_FAILURE s' /\
    idle s' /\
    threads (res s') = threads (res s) /\
    context (gh s') = create_context p /\
    contexts (res s') = contexts (res s) ++ [create_context p] /\
    connections (res s') = connections (res s) ++ [dc; dd].
Proof.
  intros [Hr Hc] Hoc Hod Hq Ha Hc0 Hen Hsp.
  apply Z.eqb_neq in Hc0.
  destruct p as [oc od q a c en sp cap]. cbn in *. subst.
  destruct s as [m [dctl ctx rl cl tid0] [conn ctxs rg ih th ex] sk lg].
  cbn in Hr, Hc. subst.
  unfold start_native_thread, setup, XRecordCreateContext,
    XRecordEnableContext.
  cbv [open_ctrl open_data query_version alloc_range create_context
       enable spawn].
  run Hc0.
  eexists. split; [reflexivity |].
  unfold idle. cbn. rewrite <- !app_assoc.
  repeat split; reflexivity.
Qed.

Lemma start_thread_creation_fails_witness :
  let p :=
    {| open_ctrl := Some 1; open_data := Some 2; query_version := true;
       alloc_range := true; create_context := 7; enable := None;
       spawn := None; capture := Exited None |} in
  idle system_init /\
  exists s',
    start_native_thread Sample.externals p system_init =
      Returns RETURN_FAILURE s' /\
    contexts (res s') = [7] /\ connections (res s') = [1; 2].
Proof.
  intros p.
  assert (Hi : idle system_init) by (split; reflexivity).
  split; [exact Hi |].
  destruct (start_thread_creation_fails Sample.externals p system_init 1 2
              Hi eq_refl eq_refl eq_refl eq_refl)
    as (s' & E & _ & _ & _ & Hctx & Hconn);
    [discriminate | reflexivity | reflexivity |].
  exists s'. repeat split; assumption.
Defined.

(** X14. The start whose context cannot be created.  When
    [XRecordCreateContext] returns 0, [start_native_thread] still calls
    [XRecordEnableContext], with context 0, and [LoadInputHelper]; it then
    never calls [pthread_create], whatever that call would answer, and,
    the enable call returning 0, returns RETURN_FAILURE with no context,
    no thread, and the two displays open. *)
Theorem start_without_context_creates_no_thread
    (X : Externals) (p : platform) (s : system) (dc dd : Display) :
  idle s ->
  open_ctrl p = Some dc -> open_data p = Some dd ->
  query_version p = true -> alloc_range p = true ->
  create_context p = 0 -> enable p = None ->
  exists s',
    start_native_thread X p s = Returns RETURN_FAILURE s' /\
    idle s' /\
    calls s' =
      calls s ++ setup_calls dc dd 0 ++ [(Caller, CallLoadInputHelper)] /\
    threads (res s') = threads (res s) /\
    contexts (res s') = contexts (res s) /\
    connections (res s') = connections (res s) ++ [dc; dd] /\
    input_helper (res s') = true.
Proof.
  intros [Hr Hc] Hoc Hod Hq Ha Hc0 Hen.
  destruct p as [oc od q a c en sp cap]. cbn in *. subst.
  destruct s as [m [dctl ctx rl cl tid0] [conn ctxs rg ih th ex] sk lg].
  cbn in Hr, Hc. subst.
  unfold start_native_thread, setup, XRecordCreateContext,
    XRecordEnableContext.
  cbv [open_ctrl open_data query_version alloc_range create_context
       enable spawn].
  repeat (cbv beta iota; cbn [negb Z.eqb]; step).
  eexists. split; [reflexivity |].
  unfold idle, setup_calls. cbn. rewrite <- !app_assoc.
  repeat split; reflexivity.
Qed.

Lemma start_without_context_creates_no_thread_witness :
  let p :=
    {| open_ctrl := Some 1; open_data := Some 2; query_version := true;
       alloc_range := true; create_context := 0; enable := None;
       spawn := Some 3; capture := InEnable [Faults.start_of_data] |} in
  idle system_init /\
  exists s',
    start_native_thread Sample.externals p system_init =
      Returns RETURN_FAILURE s' /\
    threads (res s') = [] /\
    ~ In (Caller, CallPthreadCreate) (calls s').
Proof.
  intros p.
  assert (Hi : idle system_init) by (split; reflexivity).
  split; [exact Hi |].
  destruct (start_without_context_creates_no_thread Sample.externals p
              system_init 1 2 Hi eq_refl eq_refl eq_refl eq_refl eq_refl
              eq_refl)
    as (s' & E & _ & Hcalls & Hth & _).
  exists s'. split; [exact E |]. split; [exact Hth |].
  rewrite Hcalls. cbn. intros H.
  repeat (destruct H as [H | H]; [discriminate H |]). exact H.
Defined.

Section StopPaths.

Variable X : Externals.

Lemma callbacks_finished evs d1 s :
  capturing s -> forallb live evs = true ->
  hook_category (hook d1) = XRecordEndOfData ->
  callbacks X (evs ++ [d1]) s =
  Returns tt
    (set_locked hook_running_mutex false
       (fold_left (fun s d => handled X d s) evs s)).
Proof.
  intros Hc Hl H1.
  rewrite callbacks_app, callbacks_live by assumption.
  cbn [callbacks]. unfold bind. rewrite end_of_data_proc by assumption.
  reflexivity.
Qed.

Lemma start_noop_running p s :
  running s -> start_native_thread X p s = Returns RETURN_FAILURE s.
Proof.
  intros [Hr Hc].
  destruct s as [m [dctl ctx rl cl tid] r sk lg]. cbn in Hr, Hc. subst.
  reflexivity.
Qed.

(** The stop that succeeds, with the state it ends in. *)
Lemma stop_success_state t disp_data s dc evs d1 :
  running s -> disp_ctrl (gh s) = Some dc ->
  exit_status (hook_thread_id (gh s)) (exited (res s)) = None ->
  disable t = true -> wind_down t = Some (evs ++ [d1]) ->
  forallb live evs = true ->
  hook_category (hook d1) = XRecordEndOfData ->
  exists s',
    stop_hook_thread X t disp_data s =
      Returns (RETURN_SUCCESS, None) s' /\
    idle s' /\ disp_ctrl (gh s') = None /\
    context (gh s') = context (gh s) /\
    threads (res s') =
      filter (fun x => negb (x =? hook_thread_id (gh s))) (threads (res s)) /\
    exited (res s') = exited (res s) /\
    contexts (res s') =
      filter (fun x => negb (x =? context (gh s))) (contexts (res s)) /\
    connections (res s') =
      match disp_data with
      | Some d =>
          filter (fun x => negb (x =? d))
            (filter (fun x => negb (x =? dc)) (connections (res s)))
      | None => filter (fun x => negb (x =? dc)) (connections (res s))
      end /\
    input_helper (res s') = false /\
    ranges (res s') = ranges (res s).
Proof.
  intros [Hr Hc] Hd Hex Hdis Hw Hl H1.
  destruct t as [dis wd]. cbn in Hdis, Hw. subst.
  destruct s as [m [dctl ctx rl cl tid] [conn ctxs rg ih th ex] sk lg].
  cbn in Hr, Hc, Hd, Hex. subst.
  unfold stop_hook_thread, finish_capture, pthread_exit, pthread_join.
  cbv [disable wind_down].
  run Hex.
  rewrite ?bind_assoc.
  erewrite bind_returns
    by (apply callbacks_finished;
        [split; [discriminate | reflexivity] | assumption | assumption]).
  match goal with
  | |- context [fold_left ?f evs ?s0] =>
      destruct (handled_all_frame X evs s0) as (F1 & F2 & F3);
      remember (fold_left f evs s0) as s2 eqn:Es2; clear Es2
  end.
  destruct s2 as [m2 h2 r2 sk2 lg2]. cbn in F1, F2, F3. subst.
  run Hex.
  rewrite (exit_status_snoc tid RETURN_SUCCESS ex Hex).
  run Hex.
  destruct disp_data as [dd |]; run Hex;
    (eexists; split; [reflexivity |]);
    unfold idle; cbn;
    rewrite !filter_app; cbn; rewrite Z.eqb_refl; cbn;
    rewrite exited_unchanged by assumption;
    rewrite !app_nil_r;
    repeat split; reflexivity.
Qed.

End StopPaths.

(** X15. [stop_hook_thread] while the hook does not run does nothing: it
    makes no platform call, closes nothing, joins nothing, leaves every
    global and [disp_data] as they were, and returns RETURN_FAILURE. *)
Theorem stop_while_idle_changes_nothing
    (X : Externals) (t : teardown) (disp_data : option Display)
    (s : system) :
  idle s ->
  stop_hook_thread X t disp_data s =
    Returns (RETURN_FAILURE, disp_data) s.
Proof.
  intros [Hr Hc].
  destruct s as [m [dctl ctx rl cl tid] r sk lg]. cbn in Hr, Hc. subst.
  reflexivity.
Qed.

Lemma stop_while_idle_changes_nothing_witness :
  idle system_init /\
  stop_hook_thread Sample.externals
    {| disable := true; wind_down := Some [Faults.end_of_data] |}
    (Some 2) system_init =
  Returns (RETURN_FAILURE, Some 2) system_init.
Proof.
  assert (Hi : idle system_init) by (split; reflexivity).
  split; [exact Hi |].
  apply (stop_while_idle_changes_nothing Sample.externals _ _ system_init Hi).
Defined.

(** X16. The stop that succeeds.  While the hook runs, when the context is
    disabled and the capture thread, after its last events, receives the
    end of data and leaves [thread_proc], [stop_hook_thread] joins it and
    returns its status RETURN_SUCCESS.  Afterwards both mutexes are free,
    the thread is gone and joined, the context is freed, the control
    display and the display that [disp_data] names are closed,
    [disp_ctrl] and [disp_data] are NULL, and protocol data that still
    arrives is dropped. *)
Theorem stop_releases_everything
    (X : Externals) (t : teardown) (disp_data : option Display)
    (s : system) (dc : Display) (evs : list delivery) (d1 : delivery) :
  running s -> disp_ctrl (gh s) = Some dc ->
  exit_status (hook_thread_id (gh s)) (exited (res s)) = None ->
  disable t = true -> wind_down t = Some (evs ++ [d1]) ->
  forallb live evs = true ->
  hook_category (hook d1) = XRecordEndOfData ->
  exists s',
    stop_hook_thread X t disp_data s =
      Returns (RETURN_SUCCESS, None) s' /\
    idle s' /\ disp_ctrl (gh s') = None /\
    ~ In (hook_thread_id (gh s)) (threads (res s')) /\
    exit_status (hook_thread_id (gh s)) (exited (res s')) = None /\
    ~ In (context (gh s)) (contexts (res s')) /\
    ~ In dc (connections (res s')) /\
    (forall d, disp_data = Some d -> ~ In d (connections (res s'))) /\
    (forall d, In d (connections (res s')) -> In d (connections (res s))) /\
    input_helper (res s') = false /\
    (forall late,
        forallb event_data late = true ->
        callbacks X late s' = Returns tt s').
Proof.
  intros Hrun Hd Hex Hdis Hw Hl H1.
  destruct (stop_success_state X t disp_data s dc evs d1
              Hrun Hd Hex Hdis Hw Hl H1)
    as (s' & E & Hi & Hn & _ & Hth & Hexd & Hctx & Hconn & Hih & _).
  exists s'. split; [exact E |]. split; [exact Hi |]. split; [exact Hn |].
  split; [rewrite Hth; apply not_alive_after_exit |].
  split; [rewrite Hexd; exact Hex |].
  split; [rewrite Hctx; apply not_alive_after_exit |].
  split.
  { rewrite Hconn. destruct disp_data as [dd |].
    - intros H. apply filter_In in H as [H _].
      exact (not_alive_after_exit dc _ H).
    - apply not_alive_after_exit. }
  split.
  { intros d Hdd. subst disp_data. rewrite Hconn.
    apply not_alive_after_exit. }
  split.
  { intros d. rewrite Hconn. destruct disp_data as [dd |]; intros H.
    - apply filter_In in H as [H _]. apply filter_In in H as [H _]. exact H.
    - apply filter_In in H as [H _]. exact H. }
  split; [exact Hih |].
  intros late Hlate. apply all_dropped_no_display; assumption.
Qed.

Lemma stop_releases_everything_witness :
  let t := {| disable := true;
              wind_down := Some ([Sample.press 1 1000] ++
                                 [Faults.end_of_data]) |} in
  (running Sample.capturing /\ disp_ctrl (gh Sample.capturing) = Some 1) /\
  exists s',
    stop_hook_thread Sample.externals t (Some 2) Sample.capturing =
      Returns (RETURN_SUCCESS, None) s' /\
    idle s' /\ ~ In 1 (connections (res s')) /\
    ~ In 2 (connections (res s')) /\ ~ In 3 (threads (res s')).
Proof.
  intros t.
  assert (Hr : running Sample.capturing) by (split; reflexivity).
  split; [split; [exact Hr | reflexivity] |].
  destruct (stop_releases_everything Sample.externals t (Some 2)
              Sample.capturing 1 [Sample.press 1 1000] Faults.end_of_data
              Hr eq_refl eq_refl eq_refl eq_refl eq_refl eq_refl)
    as (s' & E & Hi & _ & Hth & _ & _ & Hdc & Hdd & _).
  exists s'. split; [exact E |]. split; [exact Hi |].
  split; [exact Hdc |]. split; [apply Hdd; reflexivity | exact Hth].
Defined.

(** X17. The stop whose disable call fails.  When
    [XRecordDisableContext] returns 0, [stop_hook_thread] does not join
    the capture thread and returns RETURN_FAILURE, but it still frees the
    context, closes the displays and clears [disp_ctrl].  The capture
    thread stays alive with the running mutex held, so the hook still
    counts as running: protocol data that arrives is dropped because
    [disp_ctrl] is NULL, and every later [start_native_thread] is refused
    as a start on a running hook. *)
Theorem stop_with_failed_disable_strands_thread
    (X : Externals) (t : teardown) (disp_data : option Display)
    (s : system) (dc : Display) :
  running s -> disp_ctrl (gh s) = Some dc -> disable t = false ->
  exists s',
    stop_hook_thread X t disp_data s =
      Returns (RETURN_FAILURE, None) s' /\
    running s' /\
    result (is_hook_thread_running s') = Some true /\
    threads (res s') = threads (res s) /\
    exited (res s') = exited (res s) /\
    disp_ctrl (gh s') = None /\
    ~ In (context (gh s)) (contexts (res s')) /\
    ~ In dc (connections (res s')) /\
    (forall ds,
        forallb event_data ds = true ->
        callbacks X ds s' = Returns tt s') /\
    (forall p, start_native_thread X p s' = Returns RETURN_FAILURE s').
Proof.
  intros [Hr Hc] Hd Hdis.
  destruct t as [dis wd]. cbn in Hdis. subst.
  destruct s as [m [dctl ctx rl cl tid] [conn ctxs rg ih th ex] sk lg].
  cbn in Hr, Hc, Hd. subst.
  unfold stop_hook_thread. cbv [disable wind_down].
  run Hr.
  destruct disp_data as [dd |]; run Hr;
    (eexists; split; [reflexivity |]);
    (split; [split; reflexivity |]);
    (split; [reflexivity |]);
    (split; [reflexivity |]);
    (split; [reflexivity |]);
    (split; [reflexivity |]);
    (split; [cbn; apply not_alive_after_exit |]).
  - split.
    { cbn. intros H. apply filter_In in H as [H _].
      exact (not_alive_after_exit dc _ H). }
    split.
    + intros ds Hds. apply all_dropped_no_display; [assumption | reflexivity].
    + intros p. apply start_noop_running. split; reflexivity.
  - split; [cbn; apply not_alive_after_exit |].
    split.
    + intros ds Hds. apply all_dropped_no_display; [assumption | reflexivity].
    + intros p. apply start_noop_running. split; reflexivity.
Qed.

Lemma stop_with_failed_disable_strands_thread_witness :
  let t := {| disable := false; wind_down := None |} in
  (running Sample.capturing /\ disp_ctrl (gh Sample.capturing) = Some 1) /\
  exists s',
    stop_hook_thread Sample.externals t (Some 2) Sample.capturing =
      Returns (RETURN_FAILURE, None) s' /\
    threads (res s') = [3] /\ connections (res s') = [] /\
    start_native_thread Sample.externals Faults.none s' =
      Returns RETURN_FAILURE s'.
Proof.
  intros t.
  assert (Hr : running Sample.capturing) by (split; reflexivity).
  split; [split; [exact Hr | reflexivity] |].
  destruct (stop_with_failed_disable_strands_thread Sample.externals t
              (Some 2) Sample.capturing 1 Hr eq_refl eq_refl)
    as (s' & E & _ & _ & Hth & _ & _ & _ & _ & _ & Hstart).
  exists s'. split; [exact E |]. split; [exact Hth |].
  split; [| apply Hstart].
  injection E as <-. reflexivity.
Defined.

Section RoundTrip.

Variable X : Externals.

(** The start that succeeds, with the state it ends in. *)
Lemma start_success_state p s dc dd tid d0 evs :
  idle s ->
  open_ctrl p = Some dc -> open_data p = Some dd ->
  query_version p = true -> alloc_range p = true ->
  create_context p <> 0 -> enable p = None ->
  spawn p = Some tid -> capture p = InEnable (d0 :: evs) ->
  hook_category (hook d0) = XRecordStartOfData ->
  forallb live evs = true ->
  exists s',
    start_native_thread X p s = Returns RETURN_SUCCESS s' /\
    running s' /\
    disp_ctrl (gh s') = Some dc /\
    context (gh s') = create_context p /\
    hook_thread_id (gh s') = tid /\
    threads (res s') = threads (res s) ++ [tid] /\
    exited (res s') = exited (res s) /\
    connections (res s') = connections (res s) ++ [dc; dd] /\
    contexts (res s') = contexts (res s) ++ [create_context p] /\
    ranges (res s') = ranges (res s) + 1 - 1.
Proof.
  intros [Hr Hc] Hoc Hod Hq Ha Hc0 Hen Hsp Hcap H0 Hl.
  apply Z.eqb_neq in Hc0.
  destruct p as [oc od q a c en sp cap]. cbn in *. subst.
  destruct s as [m [dctl ctx rl cl tid0] [conn ctxs rg ih th ex] sk lg].
  cbn in Hr, Hc. subst.
  unfold start_native_thread, setup, handshake, run_capture,
    XRecordCreateContext, XRecordEnableContext.
  cbv [open_ctrl open_data query_version alloc_range create_context
       enable spawn capture].
  run Hc0.
  rewrite ?bind_assoc.
  erewrite bind_returns
    by (apply callbacks_started;
        [assumption | discriminate | reflexivity | assumption]).
  match goal with
  | |- context [fold_left ?f evs ?s0] =>
      destruct (handled_all_frame X evs s0) as (F1 & F2 & F3);
      remember (fold_left f evs s0) as s2 eqn:Es2; clear Es2
  end.
  destruct s2 as [m2 h2 r2 sk2 lg2]. cbn in F1, F2, F3. subst.
  run Hc0.
  eexists. split; [reflexivity |].
  unfold running. cbn. rewrite <- !app_assoc.
  repeat split; reflexivity.
Qed.

Lemma filter_snoc_self (x : Z) l :
  ~ In x l -> filter (fun t => negb (t =? x)) (l ++ [x]) = l.
Proof.
  intros H. rewrite filter_app. cbn. rewrite Z.eqb_refl. cbn.
  rewrite app_nil_r. apply filter_other_thread. assumption.
Qed.

End RoundTrip.

(** X18. Start, then stop.  From Idle, a start that succeeds followed by a
    stop that succeeds leaves the process idle again with the threads, the
    exit statuses to join, the contexts and the allocated ranges it had
    before, and with the control display closed.  The data display that
    the start opened is closed by the stop only if [disp_data] names it;
    with [disp_data] NULL it stays open. *)
Theorem start_then_stop_round_trip
    (X : Externals) (p : platform) (t : teardown)
    (disp_data : option Display) (s : system)
    (dc dd : Display) (tid : pthread_t)
    (d0 d1 : delivery) (evs evs' : list delivery) :
  idle s ->
  open_ctrl p = Some dc -> open_data p = Some dd ->
  query_version p = true -> alloc_range p = true ->
  create_context p <> 0 -> enable p = None ->
  spawn p = Some tid -> capture p = InEnable (d0 :: evs) ->
  hook_category (hook d0) = XRecordStartOfData ->
  forallb live evs = true ->
  disable t = true -> wind_down t = Some (evs' ++ [d1]) ->
  forallb live evs' = true ->
  hook_category (hook d1) = XRecordEndOfData ->
  ~ In dc (connections (res s)) -> ~ In dd (connections (res s)) ->
  dc <> dd ->
  ~ In (create_context p) (contexts (res s)) ->
  ~ In tid (threads (res s)) ->
  exit_status tid (exited (res s)) = None ->
  disp_data = None \/ disp_data = Some dd ->
  exists s1 s2,
    start_native_thread X p s = Returns RETURN_SUCCESS s1 /\
    stop_hook_thread X t disp_data s1 = Returns (RETURN_SUCCESS, None) s2 /\
    idle s2 /\ disp_ctrl (gh s2) = None /\
    threads (res s2) = threads (res s) /\
    exited (res s2) = exited (res s) /\
    contexts (res s2) = contexts (res s) /\
    ranges (res s2) = ranges (res s) /\
    connections (res s2) =
      match disp_data with
      | Some _ => connections (res s)
      | None => connections (res s) ++ [dd]
      end.
Proof.
  intros Hi Hoc Hod Hq Ha Hc0 Hen Hsp Hcap H0 Hl Hdis Hw Hl' H1
         Ndc Ndd Hne Nc Ntid Hex Hdata.
  destruct (start_success_state X p s dc dd tid d0 evs
              Hi Hoc Hod Hq Ha Hc0 Hen Hsp Hcap H0 Hl)
    as (s1 & E1 & Hrun & Hctrl & Hctx & Htid & Hth & Hexd & Hconn & Hcs & Hrg).
  assert (Hex1 : exit_status (hook_thread_id (gh s1)) (exited (res s1)) = None)
    by (rewrite Htid, Hexd; exact Hex).
  destruct (stop_success_state X t disp_data s1 dc evs' d1
              Hrun Hctrl Hex1 Hdis Hw Hl' H1)
    as (s2 & E2 & Hi2 & Hn2 & _ & Hth2 & Hexd2 & Hcs2 & Hconn2 & _ & Hrg2).
  exists s1, s2.
  split; [exact E1 |]. split; [exact E2 |]. split; [exact Hi2 |].
  split; [exact Hn2 |].
  split; [rewrite Hth2, Htid, Hth; apply filter_snoc_self; assumption |].
  split; [rewrite Hexd2; exact Hexd |].
  split; [rewrite Hcs2, Hctx, Hcs; apply filter_snoc_self; assumption |].
  split; [rewrite Hrg2, Hrg; lia |].
  assert (Hctl : filter (fun x => negb (x =? dc)) (connections (res s1))
                 = connections (res s) ++ [dd]).
  { rewrite Hconn, filter_app. cbn. rewrite Z.eqb_refl. cbn.
    destruct (Z.eqb_spec dd dc) as [E | _]; [congruence |]. cbn.
    rewrite filter_other_thread by assumption. reflexivity. }
  rewrite Hconn2. destruct Hdata as [-> | ->].
  - exact Hctl.
  - rewrite Hctl. apply filter_snoc_self. assumption.
Qed.

Lemma start_then_stop_round_trip_witness :
  let p :=
    {| open_ctrl := Some 1; open_data := Some 2; query_version := true;
       alloc_range := true; create_context := 7; enable := None;
       spawn := Some 3;
       capture := InEnable [Faults.start_of_data] |} in
  let t := {| disable := true;
              wind_down := Some ([Sample.press 1 1000] ++
                                 [Faults.end_of_data]) |} in
  idle system_init /\
  exists s1 s2,
    start_native_thread Sample.externals p system_init =
      Returns RETURN_SUCCESS s1 /\
    stop_hook_thread Sample.externals t None s1 =
      Returns (RETURN_SUCCESS, None) s2 /\
    idle s2 /\ threads (res s2) = [] /\ contexts (res s2) = [] /\
    connections (res s2) = [2].
Proof.
  intros p t.
  assert (Hi : idle system_init) by (split; reflexivity).
  split; [exact Hi |].
  destruct (start_then_stop_round_trip Sample.externals p t None
              system_init 1 2 3 Faults.start_of_data Faults.end_of_data
              [] [Sample.press 1 1000] Hi eq_refl eq_refl eq_refl eq_refl)
    as (s1 & s2 & E1 & E2 & Hi2 & _ & Hth & _ & Hcs & _ & Hconn);
    try reflexivity; try discriminate; try (intros []);
    [left; reflexivity |].
  exists s1, s2. repeat split; try assumption; apply Hi2.
Defined.

(** X19. Start, then start.  After a start that succeeds, a second
    [start_native_thread], whatever the platform would answer, returns
    RETURN_FAILURE and changes nothing: the one capture thread of the
    first start stays the only new thread, and no display or context is
    opened again. *)
Theorem second_start_after_success_is_refused
    (X : Externals) (p p' : platform) (s : system)
    (dc dd : Display) (tid : pthread_t) (d0 : delivery)
    (evs : list delivery) :
  idle s ->
  open_ctrl p = Some dc -> open_data p = Some dd ->
  query_version p = true -> alloc_range p = true ->
  create_context p <> 0 -> enable p = None ->
  spawn p = Some tid -> capture p = InEnable (d0 :: evs) ->
  hook_category (hook d0) = XRecordStartOfData ->
  forallb live evs = true ->
  exists s1,
    start_native_thread X p s = Returns RETURN_SUCCESS s1 /\
    start_native_thread X p' s1 = Returns RETURN_FAILURE s1 /\
    threads (res s1) = threads (res s) ++ [tid] /\
    connections (res s1) = connections (res s) ++ [dc; dd].
Proof.
  intros Hi Hoc Hod Hq Ha Hc0 Hen Hsp Hcap H0 Hl.
  destruct (start_success_state X p s dc dd tid d0 evs
              Hi Hoc Hod Hq Ha Hc0 Hen Hsp Hcap H0 Hl)
    as (s1 & E1 & Hrun & _ & _ & _ & Hth & _ & Hconn & _).
  exists s1. split; [exact E1 |].
  split; [apply start_noop_running; exact Hrun |].
  split; assumption.
Qed.

Lemma second_start_after_success_is_refused_witness :
  let p :=
    {| open_ctrl := Some 1; open_data := Some 2; query_version := true;
       alloc_range := true; create_context := 7; enable := None;
       spawn := Some 3;
       capture := InEnable [Faults.start_of_data] |} in
  idle system_init /\
  exists s1,
    start_native_thread Sample.externals p system_init =
      Returns RETURN_SUCCESS s1 /\
    start_native_thread Sample.externals p s1 = Returns RETURN_FAILURE s1 /\
    threads (res s1) = [3].
Proof.
  intros p.
  assert (Hi : idle system_init) by (split; reflexivity).
  split; [exact Hi |].
  destruct (second_start_after_success_is_refused Sample.externals p p
              system_init 1 2 3 Faults.start_of_data [] Hi
              eq_refl eq_refl eq_refl eq_refl)
    as (s1 & E1 & E2 & Hth & _);
    [discriminate | reflexivity | reflexivity | reflexivity | reflexivity
     | reflexivity |].
  exists s1. repeat split; assumption.
Defined.

(** X20. After a stop that succeeds the hook is idle in earnest: a second
    [stop_hook_thread] changes nothing and returns RETURN_FAILURE, and a
    new [start_native_thread] on a platform that answers as for a
    successful start succeeds again. *)
Theorem hook_restartable_after_stop
    (X : Externals) (t t' : teardown) (disp_data : option Display)
    (p : platform) (s : system) (dc dc' dd' : Display) (tid' : pthread_t)
    (evs evs' : list delivery) (d0 d1 : delivery) :
  running s -> disp_ctrl (gh s) = Some dc ->
  exit_status (hook_thread_id (gh s)) (exited (res s)) = None ->
  disable t = true -> wind_down t = Some (evs ++ [d1]) ->
  forallb live evs = true ->
  hook_category (hook d1) = XRecordEndOfData ->
  open_ctrl p = Some dc' -> open_data p = Some dd' ->
  query_version p = true -> alloc_range p = true ->
  create_context p <> 0 -> enable p = None ->
  spawn p = Some tid' -> capture p = InEnable (d0 :: evs') ->
  hook_category (hook d0) = XRecordStartOfData ->
  forallb live evs' = true ->
  exists s1 s2,
    stop_hook_thread X t disp_data s = Returns (RETURN_SUCCESS, None) s1 /\
    stop_hook_thread X t' None s1 = Returns (RETURN_FAILURE, None) s1 /\
    start_native_thread X p s1 = Returns RETURN_SUCCESS s2 /\
    running s2 /\ disp_ctrl (gh s2) = Some dc' /\
    hook_thread_id (gh s2) = tid'.
Proof.
  intros Hrun Hd Hex Hdis Hw Hl H1 Hoc Hod Hq Ha Hc0 Hen Hsp Hcap H0 Hl'.
  destruct (stop_success_state X t disp_data s dc evs d1
              Hrun Hd Hex Hdis Hw Hl H1) as (s1 & E1 & Hi & _).
  destruct (start_success_state X p s1 dc' dd' tid' d0 evs'
              Hi Hoc Hod Hq Ha Hc0 Hen Hsp Hcap H0 Hl')
    as (s2 & E2 & Hrun2 & Hctrl & _ & Htid & _).
  exists s1, s2. split; [exact E1 |].
  split.
  { destruct Hi as [Hr Hc].
    destruct s1 as [m [dctl ctx rl cl tid] r sk lg]. cbn in Hr, Hc. subst.
    reflexivity. }
  repeat split; try assumption; apply Hrun2.
Qed.

Lemma hook_restartable_after_stop_witness :
  let t := {| disable := true; wind_down := Some ([] ++ [Faults.end_of_data]) |} in
  let p :=
    {| open_ctrl := Some 4; open_data := Some 5; query_version := true;
       alloc_range := true; create_context := 8; enable := None;
       spawn := Some 6;
       capture := InEnable [Faults.start_of_data] |} in
  running Sample.capturing /\
  exists s1 s2,
    stop_hook_thread Sample.externals t (Some 2) Sample.capturing =
      Returns (RETURN_SUCCESS, None) s1 /\
    start_native_thread Sample.externals p s1 = Returns RETURN_SUCCESS s2 /\
    running s2 /\ hook_thread_id (gh s2) = 6.
Proof.
  intros t p.
  assert (Hr : running Sample.capturing) by (split; reflexivity).
  split; [exact Hr |].
  destruct (hook_restartable_after_stop Sample.externals t t (Some 2) p
              Sample.capturing 1 4 5 6 [] [] Faults.start_of_data
              Faults.end_of_data Hr eq_refl eq_refl eq_refl eq_refl eq_refl
              eq_refl eq_refl eq_refl eq_refl eq_refl)
    as (s1 & s2 & E1 & _ & E2 & Hrun2 & _ & Htid);
    [discriminate | reflexivity | reflexivity | reflexivity | reflexivity
     | reflexivity |].
  exists s1, s2. repeat split; try assumption; apply Hrun2.
Defined.

(** X21. A click is reported with one count.  When an ordinary button is
    pressed and released with no motion in between while the dragging flag
    is clear, the pressed, released and clicked events all carry the click
    count that the press produced: the release neither counts nor
    resets. *)
Theorem press_release_click_share_count
    (X : Externals) (s : system) (d r : delivery) :
  capturing s -> live d = true -> live r = true ->
  event_type d = ButtonPress -> is_button_code (event_code d) = true ->
  event_type r = ButtonRelease -> is_button_code (event_code r) = true ->
  mouse_dragged (gm s) = false ->
  let n := click_count (gm (after X d s)) in
  exists pressed released clicked,
    emitted X d s = [pressed] /\
    emitted X r (after X d s) = [released; clicked] /\
    id_of pressed = NATIVE_MOUSE_PRESSED /\
    id_of released = NATIVE_MOUSE_RELEASED /\
    id_of clicked = NATIVE_MOUSE_CLICKED /\
    (exists w jm x y b, pressed = NativeMouseButtonEvent NATIVE_MOUSE_PRESSED w jm x y n b) /\
    (exists w jm x y b, released = NativeMouseButtonEvent NATIVE_MOUSE_RELEASED w jm x y n b) /\
    (exists w jm x y b, clicked = NativeMouseButtonEvent NATIVE_MOUSE_CLICKED w jm x y n b) /\
    gm (after X r (after X d s)) = gm (after X d s).
Proof.
  intros Hc Hld Hlr Hp Hbp Hr Hbr Hflag n.
  assert (Hc' : capturing (after X d s)).
  { rewrite after_live by assumption. apply handled_capturing. assumption. }
  assert (Hgm : gm (after X d s) = track_click X (event_time d) (gm s)).
  { rewrite after_live, handled_gm by assumption.
    apply switch_press_mouse. assumption. }
  assert (Hf' : mouse_dragged (gm (after X d s)) = false).
  { rewrite Hgm. cbn. exact Hflag. }
  do 3 eexists.
  split.
  { rewrite emitted_live by assumption.
    rewrite switch_press_button by assumption. reflexivity. }
  split.
  { rewrite emitted_live by assumption.
    rewrite switch_release_button by assumption. rewrite Hf'. reflexivity. }
  subst n. rewrite Hgm.
  repeat split; try reflexivity; try (repeat eexists).
  rewrite <- Hgm.
  rewrite (after_live X r (after X d s)), handled_gm by assumption.
  apply switch_release_mouse. assumption.
Qed.

Lemma press_release_click_share_count_witness :
  let X := Sample.externals in
  let s := after X (Sample.press 1 900) Sample.capturing in
  capturing s /\
  emitted X (Sample.release 1 1100) (after X (Sample.press 1 1000) s) =
    [NativeMouseButtonEvent NATIVE_MOUSE_RELEASED 1100 0 10 20 2 1;
     NativeMouseButtonEvent NATIVE_MOUSE_CLICKED 1100 0 10 20 2 1].
Proof.
  intros X s.
  assert (Hc : capturing s) by (split; [discriminate | reflexivity]).
  split; [exact Hc |].
  destruct (press_release_click_share_count X s (Sample.press 1 1000)
              (Sample.release 1 1100) Hc eq_refl eq_refl eq_refl eq_refl
              eq_refl eq_refl eq_refl)
    as (pr & re & cl & _ & E & _).
  reflexivity.
Defined.

(** X22. The click counter does not look at the button.  A press of one
    ordinary button followed, within the multi-click interval, by the
    press of any other ordinary button is reported with the click count of
    the first press plus one, as a second click of the same button would
    be. *)
Theorem click_count_ignores_button
    (X : Externals) (s : system) (d1 d2 : delivery) :
  capturing s -> mouse_ok (gm s) ->
  live d1 = true -> live d2 = true ->
  event_type d1 = ButtonPress -> event_type d2 = ButtonPress ->
  is_button_code (event_code d1) = true ->
  is_button_code (event_code d2) = true ->
  0 <= event_time d1 -> 0 <= event_time d2 ->
  event_time d2 - event_time d1 <= GetMultiClickTime X ->
  click_count (gm (after X d1 s)) < CInt.USHRT_MAX ->
  emitted X d2 (after X d1 s) =
    [NativeMouseButtonEvent NATIVE_MOUSE_PRESSED (event_time d2)
       (NativeToJEventMask X (event_mask d2))
       (event_root_x d2) (event_root_y d2)
       (click_count (gm (after X d1 s)) + 1)
       (NativeToJButton X (event_code d2))].
Proof.
  intros Hc Hok L1 L2 P1 P2 B1 B2 T1 T2 Hle Hlt.
  assert (Hc' : capturing (after X d1 s)).
  { rewrite after_live by assumption. apply handled_capturing. assumption. }
  assert (R1 : 0 <= event_time d1 <= CInt.LONG_MAX)
    by (pose proof (event_time_range d1); lia).
  assert (R2 : 0 <= event_time d2 <= CInt.LONG_MAX)
    by (pose proof (event_time_range d2); lia).
  assert (Hgm : gm (after X d1 s) = track_click X (event_time d1) (gm s)).
  { rewrite after_live, handled_gm by assumption.
    apply switch_press_mouse. assumption. }
  assert (Hok' : mouse_ok (gm (after X d1 s)))
    by (rewrite Hgm; apply track_click_ok; assumption).
  assert (Htime : click_time (gm (after X d1 s)) = event_time d1)
    by (rewrite Hgm; apply track_click_time; assumption).
  rewrite emitted_live by assumption.
  rewrite switch_press_button by assumption.
  rewrite track_click_count by (rewrite ?Htime; assumption).
  rewrite Htime. apply Z.leb_le in Hle. rewrite Hle.
  rewrite to_ushort_small
    by (destruct Hok' as [[H0 _] _]; unfold CInt.USHRT_MAX in *; lia).
  reflexivity.
Qed.

Lemma click_count_ignores_button_witness :
  let X := Sample.externals in
  let s := Sample.capturing in
  (capturing s /\ mouse_ok (gm s)) /\
  emitted X (Sample.press 3 1100) (after X (Sample.press 1 1000) s) =
    [NativeMouseButtonEvent NATIVE_MOUSE_PRESSED 1100 0 10 20 2 3].
Proof.
  intros X s.
  split; [split; [exact sample_capturing | exact sample_mouse_ok] |].
  apply (click_count_ignores_button X s (Sample.press 1 1000)
           (Sample.press 3 1100) sample_capturing sample_mouse_ok
           eq_refl eq_refl eq_refl eq_refl eq_refl eq_refl);
    evaluate.
Defined.

(** X23. The time of an event is the reading of [gettimeofday] in
    milliseconds, the microseconds cut to whole milliseconds: for a reading
    after the epoch and within the range of the clock it is
    [tv_sec * 1000 + tv_usec / 1000] without overflow, it is not negative,
    and a later reading never gives an earlier time. *)
Theorem event_time_is_milliseconds (tv tv' : timeval) :
  0 <= tv_sec tv <= tv_sec tv' -> tv_sec tv' < 2 ^ 53 ->
  0 <= tv_usec tv < 1000000 -> 0 <= tv_usec tv' < 1000000 ->
  (tv_sec tv = tv_sec tv' -> tv_usec tv <= tv_usec tv') ->
  event_time_of tv = tv_sec tv * 1000 + tv_usec tv / 1000 /\
  0 <= event_time_of tv /\
  event_time_of tv <= event_time_of tv'.
Proof.
  intros Hs Hs' Hu Hu' Hlex.
  assert (Q : forall u, 0 <= u < 1000000 ->
                        Z.quot u 1000 = u / 1000 /\ 0 <= u / 1000 < 1000).
  { intros u H. rewrite Z.quot_div_nonneg by lia. split; [reflexivity |].
    split; [apply Z.div_pos; lia | apply Z.div_lt_upper_bound; lia]. }
  destruct (Q _ Hu) as [Q1 B1]. destruct (Q _ Hu') as [Q2 B2].
  assert (E : forall t, 0 <= tv_sec t < 2 ^ 53 -> 0 <= tv_usec t < 1000000 ->
                        event_time_of t = tv_sec t * 1000 + tv_usec t / 1000).
  { intros t Ht Hut. unfold event_time_of.
    destruct (Q _ Hut) as [Qt Bt]. rewrite Qt.
    apply to_long_id. unfold CInt.LONG_MAX.
    assert (2 ^ 53 * 1000 + 1000 < 2 ^ 63) by (vm_compute; reflexivity).
    lia. }
  rewrite (E tv) by lia. rewrite (E tv') by lia.
  split; [reflexivity |]. split; [lia |].
  destruct (Z.eq_dec (tv_sec tv) (tv_sec tv')) as [Eq | Ne].
  - rewrite Eq. specialize (Hlex Eq).
    pose proof (Z.div_le_mono (tv_usec tv) (tv_usec tv') 1000 ltac:(lia) Hlex).
    lia.
  - lia.
Qed.

Lemma event_time_is_milliseconds_witness :
  let tv := {| tv_sec := 1700000000; tv_usec := 999999 |} in
  let tv' := {| tv_sec := 1700000001; tv_usec := 0 |} in
  event_time_of tv = 1700000000999 /\ event_time_of tv <= event_time_of tv'.
Proof.
  intros tv tv'.
  destruct (event_time_is_milliseconds tv tv'
              ltac:(cbn; lia) ltac:(cbn; lia) ltac:(cbn; lia)
              ltac:(cbn; lia) ltac:(cbn; lia)) as (E & _ & Hle).
  split; [exact E | exact Hle].
Defined.
